(** * Financial-Data-Analyzer: the two browser clients

    A shallow embedding of the two React components of the repository:
    the financial dashboard ([src/frontend/src/App.js]) and the meeting
    summarizer (the second [App.js]).  Each component is a record of its
    [useState] cells and refs together with the browser objects it owns
    (sockets, timers); each handler of the source is a function from a
    state to a state and the list of platform calls it issues.

    Conventions of the model:
    - a JS string is a [string]; its characters are code units below 256;
    - a JS number is a [Number]: a rational, an infinity or NaN; what
      [parseFloat] returns is rounded to binary64, to nearest and ties
      to even; the two zeros are one, no code here tells them apart;
    - an [await] splits a handler in two: the part before it issues the
      request, the continuation is a handler of the response event;
    - [console.log] and [console.error] output is not recorded. *)

From Stdlib Require Import ZArith QArith String Ascii List Lia Bool DecimalString.
From stdpp Require Import prelude strings.

Local Open Scope string_scope.
Local Open Scope list_scope.
Local Open Scope nat_scope.
Local Open Scope stdpp_scope.

(** ** The JavaScript values and built-ins the components use *)

Module Js.

(** *** Strings *)

(** [WhiteSpace] and [LineTerminator] code units below 256: TAB, LF, VT,
    FF, CR, SP and NBSP. *)
Definition isWhiteSpace (c : ascii) : bool :=
  let n := nat_of_ascii c in
  (((9 <=? n) && (n <=? 13)) || (n =? 32) || (n =? 160))%nat.

Fixpoint trimStart_list (s : list ascii) : list ascii :=
  match s with
  | c :: r => if isWhiteSpace c then trimStart_list r else s
  | [] => []
  end.

(** [String.prototype.trim] *)
Definition trim (s : string) : string :=
  string_of_list_ascii
    (rev (trimStart_list (rev (trimStart_list (list_ascii_of_string s))))).

(** Truthiness of a string: only the empty string is falsy. *)
Definition truthy_string (s : string) : bool :=
  negb (String.eqb s "").

(** [String.prototype.endsWith(searchString)]: the search string is
    compared with the substring that ends at the end of [s]. *)
Definition endsWith (s suffix : string) : bool :=
  let len := String.length s in
  let searchLength := String.length suffix in
  if (searchLength <=? len)%nat
  then String.eqb (substring (len - searchLength) searchLength s) suffix
  else false.

Definition startsWith (s p : string) : bool := String.prefix p s.

(** [s.replace(/^https?:\/\//, r)]: the match is anchored at the start of
    the string and replaced once. *)
Definition replace_http_scheme (r s : string) : string :=
  if startsWith s "https://"
  then r +:+ substring 8 (String.length s - 8) s
  else if startsWith s "http://"
  then r +:+ substring 7 (String.length s - 7) s
  else s.

(** *** Numbers *)

Inductive Number : Type :=
  | NaN
  | PosInf
  | NegInf
  | Fin (q : Q).

(** Truthiness of a number: zero and NaN are falsy. *)
Definition truthy_number (n : Number) : bool :=
  match n with
  | NaN => false
  | PosInf | NegInf => true
  | Fin q => negb (Qeq_bool q 0)
  end.

(** [n.toString()] of an integral number, as [Date.now()] returns. *)
Definition int_toString (n : Z) : string :=
  NilZero.string_of_int (Z.to_int n).

Definition digit_val (c : ascii) : option Z :=
  let n := Z.of_nat (nat_of_ascii c) in
  if ((48 <=? n) && (n <=? 57))%Z then Some (n - 48)%Z else None.

(** Reads the longest run of decimal digits: the value accumulated on
    [acc], the number of digits read, and the rest. *)
Fixpoint read_digits (s : list ascii) (acc : Z) (count : nat)
  : Z * nat * list ascii :=
  match s with
  | c :: r =>
      match digit_val c with
      | Some d => read_digits r (10 * acc + d)%Z (S count)
      | None => (acc, count, s)
      end
  | [] => (acc, count, [])
  end.

(** [num / den] rounded to the nearest integer, ties to the even one,
    for [0 <= num] and [0 < den]. *)
Definition round_half_even (num den : Z) : Z :=
  let q := (num / den)%Z in
  let r := (num mod den)%Z in
  match (2 * r ?= den)%Z with
  | Lt => q
  | Gt => (q + 1)%Z
  | Eq => if Z.even q then q else (q + 1)%Z
  end.

(** The [e] with [2 ^ e <= a / b < 2 ^ (e + 1)], for [0 < a] and
    [0 < b]. *)
Definition floor_log2 (a b : Z) : Z :=
  let e0 := (Z.log2 a - Z.log2 b)%Z in
  if (b * 2 ^ Z.max 0 e0 <=? a * 2 ^ Z.max 0 (- e0))%Z
  then e0 else (e0 - 1)%Z.

(** The Number value of a rational: the nearest binary64, ties to even.
    The spacing of the binary64 values around [q] is [2 ^ (e - 52)]
    with [e] the exponent of [q], not below that of the subnormals;
    what rounds up to [2 ^ 1024] is an infinity. *)
Definition binary64 (q : Q) : Number :=
  let a := Z.abs (Qnum q) in
  let b := Zpos (Qden q) in
  if (a =? 0)%Z then Fin (0 # 1)
  else
    let e := Z.max (floor_log2 a b) (-1022) in
    let k := (e - 52)%Z in
    let m := round_half_even (a * 2 ^ Z.max 0 (- k)) (b * 2 ^ Z.max 0 k) in
    if (m =? 0)%Z then Fin (0 # 1)
    else if (1024 <=? Z.log2 m + k)%Z
    then (if (Qnum q <? 0)%Z then NegInf else PosInf)
    else Fin (Qred (inject_Z (Z.sgn (Qnum q) * m) * Qpower (2 # 1) k)).

Definition is_exponent_indicator (c : ascii) : bool :=
  Ascii.eqb c "e"%char || Ascii.eqb c "E"%char.

(** [ExponentPart]: an indicator, an optional sign and at least one
    digit; anything else is not part of the literal. *)
Definition read_exponent (s : list ascii) : Z :=
  match s with
  | c :: r =>
      if is_exponent_indicator c then
        let '(sgn, r') :=
          match r with
          | "+"%char :: t => (1%Z, t)
          | "-"%char :: t => ((-1)%Z, t)
          | _ => (1%Z, r)
          end in
        let '(ev, k, _) := read_digits r' 0 0 in
        if (k =? 0)%nat then 0%Z else (sgn * ev)%Z
      else 0%Z
  | [] => 0%Z
  end.

(** The longest prefix that is a [StrUnsignedDecimalLiteral], and the
    Number value of what it denotes; [None] when no prefix is one. *)
Definition parse_unsigned (s : list ascii) : option Number :=
  if String.prefix "Infinity" (string_of_list_ascii s) then Some PosInf
  else
    let '(ip, n1, r1) := read_digits s 0 0 in
    let '(m, nfrac, r2) :=
      match r1 with
      | "."%char :: r => read_digits r ip 0
      | _ => (ip, 0, r1)
      end in
    if (n1 =? 0)%nat && (nfrac =? 0)%nat then None
    else
      let e := read_exponent r2 in
      Some (binary64 (inject_Z m * Qpower (10 # 1) (e - Z.of_nat nfrac))).

Definition negate (n : Number) : Number :=
  match n with
  | NaN => NaN
  | PosInf => NegInf
  | NegInf => PosInf
  | Fin q => Fin (Qred (Qopp q))
  end.

(** [parseFloat(string)]: leading white space is skipped, then the
    longest prefix that is a [StrDecimalLiteral] is read. *)
Definition parseFloat (s : string) : Number :=
  let t := trimStart_list (list_ascii_of_string s) in
  let r :=
    match t with
    | "+"%char :: u => parse_unsigned u
    | "-"%char :: u => option_map negate (parse_unsigned u)
    | _ => parse_unsigned t
    end in
  match r with
  | Some n => n
  | None => NaN
  end.

(** *** Values *)

#[warnings="-register-all"]
Inductive JsValue : Type :=
  | JUndefined
  | JNull
  | JBool (b : bool)
  | JNum (n : Number)
  | JStr (s : string)
  | JArr (items : list JsValue)
  | JObj (fields : list (string * JsValue)).

(** [ToBoolean] *)
Definition truthy (v : JsValue) : bool :=
  match v with
  | JUndefined | JNull => false
  | JBool b => b
  | JNum n => truthy_number n
  | JStr s => truthy_string s
  | JArr _ | JObj _ => true
  end.

Fixpoint own_property (k : string) (fields : list (string * JsValue))
  : JsValue :=
  match fields with
  | (k', v) :: r => if String.eqb k k' then v else own_property k r
  | [] => JUndefined
  end.

(** [v.k] for the property names the components read ([type], [price],
    [rsi], ...), none of which a primitive or an array defines: [None]
    is the [TypeError] of reading a property of [null] or [undefined]. *)
Definition prop (v : JsValue) (k : string) : option JsValue :=
  match v with
  | JUndefined | JNull => None
  | JObj fields => Some (own_property k fields)
  | _ => Some JUndefined
  end.

(** [v?.k] *)
Definition opt_prop (v : JsValue) (k : string) : JsValue :=
  match prop v k with
  | Some x => x
  | None => JUndefined
  end.

(** [a || b] *)
Definition or_else (a b : JsValue) : JsValue :=
  if truthy a then a else b.

(** [v === "s"] *)
Definition strict_eq_string (v : JsValue) (s : string) : bool :=
  match v with
  | JStr t => String.eqb t s
  | _ => false
  end.

(** *** Arrays *)

(** The relative index of [Array.prototype.slice]: negative indices
    count from the end, and the result is clamped to [0, len]. *)
Definition relative_index (len i : Z) : Z :=
  if (i <? 0)%Z then Z.max (len + i) 0 else Z.min i len.

(** [l.slice(start)] and [l.slice(start, end)] *)
Definition slice {A : Type} (l : list A) (start : Z) (end_ : option Z)
  : list A :=
  let len := Z.of_nat (length l) in
  let k := relative_index len start in
  let final :=
    match end_ with
    | None => len
    | Some e => relative_index len e
    end in
  take (Z.to_nat (final - k)) (drop (Z.to_nat k) l).

End Js.


(** ** The financial dashboard ([src/frontend/src/App.js]) *)

Module Dashboard.
Import Js.

(** What the component takes from its environment: the configured
    backend URL, the URLs the [WebSocket] constructor refuses with an
    exception, and the clock reading when the page is loaded. *)
Record Platform : Type := {
  BACKEND_URL : string;
  ws_rejects : string -> bool;
  start_time : N
}.

Definition API (P : Platform) : string := BACKEND_URL P +:+ "/api".

Definition WS_URL (P : Platform) : string :=
  replace_http_scheme "wss://" (BACKEND_URL P).

(** *** Browser objects *)

Inductive ReadyState : Type := CONNECTING | OPEN | CLOSING | CLOSED.

(** A socket and the [symbol] its handlers close over. *)
Record WebSocket : Type := {
  url : string;
  symbol : string;
  readyState : ReadyState
}.

(** A pending [setTimeout]: its id, the clock reading at which it is due
    and the symbol its callback reconnects to. *)
Record Timer : Type := {
  timer_id : nat;
  due : N;
  reconnect_symbol : string
}.

(** *** Data *)

Record Sample : Type := {
  timestamp : JsValue;
  price : JsValue;
  volume : JsValue
}.

Record AlertData : Type := {
  id : string;
  alert_symbol : string;
  condition : string;
  target_price : Number;
  current_price : JsValue;
  triggered : bool
}.

(** The platform calls a handler issues, in order. *)
Inductive Effect : Type :=
  | HttpGet (u : string)
  | HttpPost (u : string) (body : AlertData)
  | ToastSuccess (msg : string)
  | ToastError (msg : string)
  | WsConstruct (ws : nat) (u : string)
  | WsCloseCall (ws : nat)
  | SetTimeout (t : nat) (ms : N)
  | ClearTimeout (t : nat).

Inductive Lifecycle : Type := Created | Mounted | Unmounted.

(** *** Component state *)

Record State : Type := mkState {
  (* the [useState] cells *)
  selectedSymbol : string;
  symbols : JsValue;
  currentData : JsValue;
  indicators : JsValue;
  aiAnalysis : JsValue;
  isConnected : bool;
  priceHistory : list Sample;
  alerts : JsValue;
  alertPrice : string;
  alertType : string;
  recentAnalyses : JsValue;
  (* the [useRef] cells: a socket, a timer id; [None] is [null] *)
  wsRef : option nat;
  reconnectTimeoutRef : option nat;
  (* the browser: every socket constructed so far, by index; the
     pending timers; the clock in milliseconds *)
  sockets : list WebSocket;
  timers : list Timer;
  next_timer_id : nat;
  clock : N;
  lifecycle : Lifecycle
}.

Definition set_selectedSymbol (x : string) (st : State) : State :=
  {| selectedSymbol := x; symbols := symbols st;
     currentData := currentData st; indicators := indicators st;
     aiAnalysis := aiAnalysis st; isConnected := isConnected st;
     priceHistory := priceHistory st; alerts := alerts st;
     alertPrice := alertPrice st; alertType := alertType st;
     recentAnalyses := recentAnalyses st; wsRef := wsRef st;
     reconnectTimeoutRef := reconnectTimeoutRef st;
     sockets := sockets st; timers := timers st;
     next_timer_id := next_timer_id st; clock := clock st;
     lifecycle := lifecycle st |}.

Definition set_symbols (x : JsValue) (st : State) : State :=
  {| selectedSymbol := selectedSymbol st; symbols := x;
     currentData := currentData st; indicators := indicators st;
     aiAnalysis := aiAnalysis st; isConnected := isConnected st;
     priceHistory := priceHistory st; alerts := alerts st;
     alertPrice := alertPrice st; alertType := alertType st;
     recentAnalyses := recentAnalyses st; wsRef := wsRef st;
     reconnectTimeoutRef := reconnectTimeoutRef st;
     sockets := sockets st; timers := timers st;
     next_timer_id := next_timer_id st; clock := clock st;
     lifecycle := lifecycle st |}.

Definition set_currentData (x : JsValue) (st : State) : State :=
  {| selectedSymbol := selectedSymbol st; symbols := symbols st;
     currentData := x; indicators := indicators st;
     aiAnalysis := aiAnalysis st; isConnected := isConnected st;
     priceHistory := priceHistory st; alerts := alerts st;
     alertPrice := alertPrice st; alertType := alertType st;
     recentAnalyses := recentAnalyses st; wsRef := wsRef st;
     reconnectTimeoutRef := reconnectTimeoutRef st;
     sockets := sockets st; timers := timers st;
     next_timer_id := next_timer_id st; clock := clock st;
     lifecycle := lifecycle st |}.

Definition set_indicators (x : JsValue) (st : State) : State :=
  {| selectedSymbol := selectedSymbol st; symbols := symbols st;
     currentData := currentData st; indicators := x;
     aiAnalysis := aiAnalysis st; isConnected := isConnected st;
     priceHistory := priceHistory st; alerts := alerts st;
     alertPrice := alertPrice st; alertType := alertType st;
     recentAnalyses := recentAnalyses st; wsRef := wsRef st;
     reconnectTimeoutRef := reconnectTimeoutRef st;
     sockets := sockets st; timers := timers st;
     next_timer_id := next_timer_id st; clock := clock st;
     lifecycle := lifecycle st |}.

Definition set_aiAnalysis (x : JsValue) (st : State) : State :=
  {| selectedSymbol := selectedSymbol st; symbols := symbols st;
     currentData := currentData st; indicators := indicators st;
     aiAnalysis := x; isConnected := isConnected st;
     priceHistory := priceHistory st; alerts := alerts st;
     alertPrice := alertPrice st; alertType := alertType st;
     recentAnalyses := recentAnalyses st; wsRef := wsRef st;
     reconnectTimeoutRef := reconnectTimeoutRef st;
     sockets := sockets st; timers := timers st;
     next_timer_id := next_timer_id st; clock := clock st;
     lifecycle := lifecycle st |}.

Definition set_isConnected (x : bool) (st : State) : State :=
  {| selectedSymbol := selectedSymbol st; symbols := symbols st;
     currentData := currentData st; indicators := indicators st;
     aiAnalysis := aiAnalysis st; isConnected := x;
     priceHistory := priceHistory st; alerts := alerts st;
     alertPrice := alertPrice st; alertType := alertType st;
     recentAnalyses := recentAnalyses st; wsRef := wsRef st;
     reconnectTimeoutRef := reconnectTimeoutRef st;
     sockets := sockets st; timers := timers st;
     next_timer_id := next_timer_id st; clock := clock st;
     lifecycle := lifecycle st |}.

Definition set_priceHistory (x : list Sample) (st : State) : State :=
  {| selectedSymbol := selectedSymbol st; symbols := symbols st;
     currentData := currentData st; indicators := indicators st;
     aiAnalysis := aiAnalysis st; isConnected := isConnected st;
     priceHistory := x; alerts := alerts st;
     alertPrice := alertPrice st; alertType := alertType st;
     recentAnalyses := recentAnalyses st; wsRef := wsRef st;
     reconnectTimeoutRef := reconnectTimeoutRef st;
     sockets := sockets st; timers := timers st;
     next_timer_id := next_timer_id st; clock := clock st;
     lifecycle := lifecycle st |}.

Definition set_alerts (x : JsValue) (st : State) : State :=
  {| selectedSymbol := selectedSymbol st; symbols := symbols st;
     currentData := currentData st; indicators := indicators st;
     aiAnalysis := aiAnalysis st; isConnected := isConnected st;
     priceHistory := priceHistory st; alerts := x;
     alertPrice := alertPrice st; alertType := alertType st;
     recentAnalyses := recentAnalyses st; wsRef := wsRef st;
     reconnectTimeoutRef := reconnectTimeoutRef st;
     sockets := sockets st; timers := timers st;
     next_timer_id := next_timer_id st; clock := clock st;
     lifecycle := lifecycle st |}.

Definition set_alertPrice (x : string) (st : State) : State :=
  {| selectedSymbol := selectedSymbol st; symbols := symbols st;
     currentData := currentData st; indicators := indicators st;
     aiAnalysis := aiAnalysis st; isConnected := isConnected st;
     priceHistory := priceHistory st; alerts := alerts st;
     alertPrice := x; alertType := alertType st;
     recentAnalyses := recentAnalyses st; wsRef := wsRef st;
     reconnectTimeoutRef := reconnectTimeoutRef st;
     sockets := sockets st; timers := timers st;
     next_timer_id := next_timer_id st; clock := clock st;
     lifecycle := lifecycle st |}.

Definition set_alertType (x : string) (st : State) : State :=
  {| selectedSymbol := selectedSymbol st; symbols := symbols st;
     currentData := currentData st; indicators := indicators st;
     aiAnalysis := aiAnalysis st; isConnected := isConnected st;
     priceHistory := priceHistory st; alerts := alerts st;
     alertPrice := alertPrice st; alertType := x;
     recentAnalyses := recentAnalyses st; wsRef := wsRef st;
     reconnectTimeoutRef := reconnectTimeoutRef st;
     sockets := sockets st; timers := timers st;
     next_timer_id := next_timer_id st; clock := clock st;
     lifecycle := lifecycle st |}.

Definition set_recentAnalyses (x : JsValue) (st : State) : State :=
  {| selectedSymbol := selectedSymbol st; symbols := symbols st;
     currentData := currentData st; indicators := indicators st;
     aiAnalysis := aiAnalysis st; isConnected := isConnected st;
     priceHistory := priceHistory st; alerts := alerts st;
     alertPrice := alertPrice st; alertType := alertType st;
     recentAnalyses := x; wsRef := wsRef st;
     reconnectTimeoutRef := reconnectTimeoutRef st;
     sockets := sockets st; timers := timers st;
     next_timer_id := next_timer_id st; clock := clock st;
     lifecycle := lifecycle st |}.

Definition set_wsRef (x : option nat) (st : State) : State :=
  {| selectedSymbol := selectedSymbol st; symbols := symbols st;
     currentData := currentData st; indicators := indicators st;
     aiAnalysis := aiAnalysis st; isConnected := isConnected st;
     priceHistory := priceHistory st; alerts := alerts st;
     alertPrice := alertPrice st; alertType := alertType st;
     recentAnalyses := recentAnalyses st; wsRef := x;
     reconnectTimeoutRef := reconnectTimeoutRef st;
     sockets := sockets st; timers := timers st;
     next_timer_id := next_timer_id st; clock := clock st;
     lifecycle := lifecycle st |}.

Definition set_reconnectTimeoutRef (x : option nat) (st : State) : State :=
  {| selectedSymbol := selectedSymbol st; symbols := symbols st;
     currentData := currentData st; indicators := indicators st;
     aiAnalysis := aiAnalysis st; isConnected := isConnected st;
     priceHistory := priceHistory st; alerts := alerts st;
     alertPrice := alertPrice st; alertType := alertType st;
     recentAnalyses := recentAnalyses st; wsRef := wsRef st;
     reconnectTimeoutRef := x; sockets := sockets st;
     timers := timers st; next_timer_id := next_timer_id st;
     clock := clock st; lifecycle := lifecycle st |}.

Definition set_sockets (x : list WebSocket) (st : State) : State :=
  {| selectedSymbol := selectedSymbol st; symbols := symbols st;
     currentData := currentData st; indicators := indicators st;
     aiAnalysis := aiAnalysis st; isConnected := isConnected st;
     priceHistory := priceHistory st; alerts := alerts st;
     alertPrice := alertPrice st; alertType := alertType st;
     recentAnalyses := recentAnalyses st; wsRef := wsRef st;
     reconnectTimeoutRef := reconnectTimeoutRef st; sockets := x;
     timers := timers st; next_timer_id := next_timer_id st;
     clock := clock st; lifecycle := lifecycle st |}.

Definition set_timers (x : list Timer) (st : State) : State :=
  {| selectedSymbol := selectedSymbol st; symbols := symbols st;
     currentData := currentData st; indicators := indicators st;
     aiAnalysis := aiAnalysis st; isConnected := isConnected st;
     priceHistory := priceHistory st; alerts := alerts st;
     alertPrice := alertPrice st; alertType := alertType st;
     recentAnalyses := recentAnalyses st; wsRef := wsRef st;
     reconnectTimeoutRef := reconnectTimeoutRef st;
     sockets := sockets st; timers := x;
     next_timer_id := next_timer_id st; clock := clock st;
     lifecycle := lifecycle st |}.

Definition set_next_timer_id (x : nat) (st : State) : State :=
  {| selectedSymbol := selectedSymbol st; symbols := symbols st;
     currentData := currentData st; indicators := indicators st;
     aiAnalysis := aiAnalysis st; isConnected := isConnected st;
     priceHistory := priceHistory st; alerts := alerts st;
     alertPrice := alertPrice st; alertType := alertType st;
     recentAnalyses := recentAnalyses st; wsRef := wsRef st;
     reconnectTimeoutRef := reconnectTimeoutRef st;
     sockets := sockets st; timers := timers st; next_timer_id := x;
     clock := clock st; lifecycle := lifecycle st |}.

Definition set_clock (x : N) (st : State) : State :=
  {| selectedSymbol := selectedSymbol st; symbols := symbols st;
     currentData := currentData st; indicators := indicators st;
     aiAnalysis := aiAnalysis st; isConnected := isConnected st;
     priceHistory := priceHistory st; alerts := alerts st;
     alertPrice := alertPrice st; alertType := alertType st;
     recentAnalyses := recentAnalyses st; wsRef := wsRef st;
     reconnectTimeoutRef := reconnectTimeoutRef st;
     sockets := sockets st; timers := timers st;
     next_timer_id := next_timer_id st; clock := x;
     lifecycle := lifecycle st |}.

Definition set_lifecycle (x : Lifecycle) (st : State) : State :=
  {| selectedSymbol := selectedSymbol st; symbols := symbols st;
     currentData := currentData st; indicators := indicators st;
     aiAnalysis := aiAnalysis st; isConnected := isConnected st;
     priceHistory := priceHistory st; alerts := alerts st;
     alertPrice := alertPrice st; alertType := alertType st;
     recentAnalyses := recentAnalyses st; wsRef := wsRef st;
     reconnectTimeoutRef := reconnectTimeoutRef st;
     sockets := sockets st; timers := timers st;
     next_timer_id := next_timer_id st; clock := clock st;
     lifecycle := x |}.


Definition initial_symbol : string := "AAPL".

Definition initial_state (P : Platform) : State :=
  {| selectedSymbol := initial_symbol; symbols := JArr [];
     currentData := JNull; indicators := JObj []; aiAnalysis := JNull;
     isConnected := false; priceHistory := []; alerts := JArr [];
     alertPrice := ""; alertType := "above"; recentAnalyses := JArr [];
     wsRef := None; reconnectTimeoutRef := None;
     sockets := []; timers := []; next_timer_id := 1;
     clock := start_time P; lifecycle := Created |}.

(** A socket counts as live from its construction until [close()] is
    called on it or its connection ends. *)
Definition live (ws : WebSocket) : bool :=
  match readyState ws with
  | CONNECTING | OPEN => true
  | CLOSING | CLOSED => false
  end.

Definition with_readyState (r : ReadyState) (ws : WebSocket) : WebSocket :=
  {| url := url ws; symbol := symbol ws; readyState := r |}.

(** [ws.close()]: nothing happens on a socket that is closing or closed;
    otherwise the socket goes to [CLOSING]. *)
Definition ws_close (i : nat) (st : State) : State * list Effect :=
  match sockets st !! i with
  | Some ws =>
      (if live ws
       then set_sockets (<[i := with_readyState CLOSING ws]> (sockets st)) st
       else st,
       [WsCloseCall i])
  | None => (st, [])
  end.

(** [clearTimeout(t)] *)
Definition clear_timeout (t : nat) (st : State) : State * list Effect :=
  (set_timers (filter (fun tm => timer_id tm <> t) (timers st)) st,
   [ClearTimeout t]).

(** *** The view: the indicator cards and the Active Alerts panel *)

(** What an expression of the JSX shows: a literal text, or a value
    passed through one of the platform's formatters. *)
Inductive Rendered : Type :=
  | Text (s : string)
  | Currency (v : JsValue)
  | Fixed2 (v : JsValue).

(** Whether [ToPrimitive(v)] returns, for a value parsed from JSON, as
    the formatters and [new Date] ask before they convert their
    argument.  An object with a key [toString] of its own has nothing
    callable left to convert it, a [TypeError]; an array joins the
    conversions of its elements, [null] apart. *)
Fixpoint to_primitive_returns (v : JsValue) : bool :=
  match v with
  | JUndefined | JNull | JBool _ | JNum _ | JStr _ => true
  | JArr items =>
      (fix each (l : list JsValue) : bool :=
         match l with
         | [] => true
         | JUndefined :: r | JNull :: r => each r
         | x :: r => to_primitive_returns x && each r
         end) items
  | JObj fields =>
      match own_property "toString" fields with
      | JUndefined => true
      | _ => false
      end
  end.

(** [formatPrice], lines 218-224: [Intl.NumberFormat] as US dollars;
    [None] when the conversion of the argument throws. *)
Definition formatPrice (p : JsValue) : option Rendered :=
  if to_primitive_returns p then Some (Currency p) else None.

(** [formatNumber], lines 226-229; [Fixed2 num] stands for
    [parseFloat(num).toFixed(2)], and [None] for the exception of
    [parseFloat] converting its argument to a string. *)
Definition formatNumber (num : JsValue) : option Rendered :=
  match num with
  | JNull | JUndefined => Some (Text "N/A")
  | _ => if to_primitive_returns num then Some (Fixed2 num) else None
  end.

(** The texts of the indicator cards; [None] when evaluating the
    expression throws. *)

(** line 368 *)
Definition vwap_card (indicators : JsValue) : option Rendered :=
  vwap ← prop indicators "vwap";
  if truthy vwap then formatPrice vwap else Some (Text "$0.00").

(** line 385 *)
Definition sma_card (indicators : JsValue) : option Rendered :=
  sma_20 ← prop indicators "sma_20";
  if truthy sma_20 then formatPrice sma_20 else Some (Text "N/A").

(** line 399 *)
Definition ema_card (indicators : JsValue) : option Rendered :=
  ema_20 ← prop indicators "ema_20";
  if truthy ema_20 then formatPrice ema_20 else Some (Text "N/A").

(** line 413 *)
Definition bb_upper_card (indicators : JsValue) : option Rendered :=
  bollinger_bands ← prop indicators "bollinger_bands";
  let upper := opt_prop bollinger_bands "upper" in
  if truthy upper then formatPrice upper else Some (Text "N/A").

(** line 427 *)
Definition bb_lower_card (indicators : JsValue) : option Rendered :=
  bollinger_bands ← prop indicators "bollinger_bands";
  let lower := opt_prop bollinger_bands "lower" in
  if truthy lower then formatPrice lower else Some (Text "N/A").

(** A field that is missing, or sent as [null]. *)
Definition absent (v : JsValue) : Prop := v = JUndefined \/ v = JNull.

(** One row of the Active Alerts panel, lines 602-619: its key, the
    symbol and the condition handed to React as they are, the formatted
    target price, the value whose date is shown, and the badge. *)
Record AlertRow : Type := {
  row_key : nat;
  row_symbol : JsValue;
  row_condition : JsValue;
  row_target : Rendered;
  row_created : JsValue;
  row_badge : string
}.

(** [None] when evaluating the row throws: [alert] is [null] or
    [undefined], [formatPrice(alert.target_price)] throws, or
    [new Date(alert.created_at)] cannot convert its argument. *)
Definition alert_row (index : nat) (alert : JsValue) : option AlertRow :=
  sym ← prop alert "symbol";
  cond ← prop alert "condition";
  target ← prop alert "target_price";
  target_text ← formatPrice target;
  created ← prop alert "created_at";
  trig ← prop alert "triggered";
  if to_primitive_returns created
  then Some {| row_key := index; row_symbol := sym; row_condition := cond;
               row_target := target_text; row_created := created;
               row_badge := if truthy trig then "Triggered" else "Active" |}
  else None.

(** [arr.map((alert, index) => ...)], from [index] on *)
Fixpoint alert_rows (index : nat) (arr : list JsValue)
  : option (list AlertRow) :=
  match arr with
  | [] => Some []
  | alert :: rest =>
      row ← alert_row index alert;
      rows ← alert_rows (S index) rest;
      Some (row :: rows)
  end.

Inductive AlertsPanel : Type :=
  | NoActiveAlerts
  | AlertRows (rows : list AlertRow).

(** The Active Alerts panel, lines 599-627, of the array held in
    [alerts]. *)
Definition alerts_panel (alerts : list JsValue) : option AlertsPanel :=
  if 0 <? length alerts
  then rows ← alert_rows 0 (slice alerts 0 (Some 5%Z)); Some (AlertRows rows)
  else Some NoActiveAlerts.

(** *** The streaming client *)

Section Handlers.
Context (P : Platform).

Definition market_url (sym : string) : string :=
  WS_URL P +:+ "/api/ws/market/" +:+ sym.

(** [connectWebSocket(symbol)], lines 102-151.  The socket's handlers
    are the cases [WsOpened], [WsMessage], [WsClosed] and [WsErrored] of
    [step] below; they read [symbol] from the socket's record. *)
Definition connectWebSocket (sym : string) (st : State)
  : State * list Effect :=
  let '(st1, e1) :=
    match wsRef st with
    | Some i => ws_close i st
    | None => (st, [])
    end in
  let wsUrl := market_url sym in
  if ws_rejects P wsUrl
  then (set_isConnected false st1, e1)
  else
    let ws := length (sockets st1) in
    let socket := {| url := wsUrl; symbol := sym; readyState := CONNECTING |} in
    (set_wsRef (Some ws) (set_sockets (sockets st1 ++ [socket]) st1),
     e1 ++ [WsConstruct ws wsUrl]).

(** [fetchRecentAnalyses], lines 93-100: the request; [sym] is the
    [selectedSymbol] of the render whose closure makes the call. *)
Definition fetchRecentAnalyses (sym : string) : list Effect :=
  [HttpGet (API P +:+ "/analysis/" +:+ sym)].

Definition fetchSymbols : list Effect := [HttpGet (API P +:+ "/symbols")].

Definition fetchAlerts : list Effect := [HttpGet (API P +:+ "/alerts")].

Definition sample_of (data : JsValue) : Sample :=
  {| timestamp := opt_prop data "timestamp";
     price := opt_prop data "price";
     volume := opt_prop data "volume" |}.

(** The updater passed to [setPriceHistory], lines 164-171. *)
Definition push_history (data : JsValue) (prev : list Sample) : list Sample :=
  let newHistory := prev ++ [sample_of data] in
  slice newHistory (-50) None.

(** [handleWebSocketMessage(data)], lines 153-183; [None] when reading
    [data.type] throws.  In the other cases [data] is neither [null] nor
    [undefined], so the later reads of its fields cannot throw.
    [connectWebSocket] is memoised with no dependencies, so the handler
    it installs is the one of the first render, whose
    [fetchRecentAnalyses] reads the initial [selectedSymbol]. *)
Definition handleWebSocketMessage (data : JsValue) (st : State)
  : option (State * list Effect) :=
  ty ← prop data "type";
  if strict_eq_string ty "connection" then Some (st, [])
  else if strict_eq_string ty "market_data" then
    let st1 := set_currentData data st in
    let st2 := set_indicators (or_else (opt_prop data "indicators") (JObj [])) st1 in
    Some (set_priceHistory (push_history data (priceHistory st2)) st2, [])
  else if strict_eq_string ty "ai_analysis" then
    Some (set_aiAnalysis data st,
          ToastSuccess "🧠 New AI Analysis Available!"
            :: fetchRecentAnalyses initial_symbol)
  else Some (st, []).

(** [data.type === t], the discriminator the [switch] tests; false when
    there is no [data] to read it from. *)
Definition has_type (data : JsValue) (t : string) : bool :=
  match prop data "type" with
  | Some ty => strict_eq_string ty t
  | None => false
  end.

(** [ws.onopen], lines 115-119 *)
Definition onopen (ws : WebSocket) (st : State) : State * list Effect :=
  (set_isConnected true st,
   [ToastSuccess ("Connected to " +:+ symbol ws +:+ " live data")]).

(** [ws.onmessage], lines 121-128: [text] is the outcome of
    [JSON.parse(event.data)], [None] when it throws; both exceptions are
    caught. *)
Definition onmessage (text : option JsValue) (st : State)
  : State * list Effect :=
  match text with
  | Some data =>
      match handleWebSocketMessage data st with
      | Some r => r
      | None => (st, [])
      end
  | None => (st, [])
  end.

Definition reconnect_delay : N := 3000.

(** [ws.onclose], lines 130-139 *)
Definition onclose (ws : WebSocket) (st : State) : State * list Effect :=
  let st1 := set_isConnected false st in
  let t := next_timer_id st1 in
  let tm := {| timer_id := t; due := (clock st1 + reconnect_delay)%N;
               reconnect_symbol := symbol ws |} in
  (set_reconnectTimeoutRef (Some t)
     (set_next_timer_id (S t) (set_timers (timers st1 ++ [tm]) st1)),
   [SetTimeout t reconnect_delay]).

(** [ws.onerror], lines 141-145 *)
Definition onerror (st : State) : State * list Effect :=
  (set_isConnected false st, [ToastError "Connection error occurred"]).

(** The effect on [selectedSymbol], lines 59-63 *)
Definition symbol_effect (st : State) : State * list Effect :=
  if truthy_string (selectedSymbol st)
  then connectWebSocket (selectedSymbol st) st
  else (st, []).

(** Its cleanup, lines 64-71.  Timer ids are positive, so a stored id is
    truthy; the test is kept as the source has it. *)
Definition symbol_cleanup (st : State) : State * list Effect :=
  let '(st1, e1) :=
    match wsRef st with
    | Some i => ws_close i st
    | None => (st, [])
    end in
  let '(st2, e2) :=
    match reconnectTimeoutRef st1 with
    | Some t => if (t =? 0)%nat then (st1, []) else clear_timeout t st1
    | None => (st1, [])
    end in
  (st2, e1 ++ e2).

(** The effect of the first render, lines 52-56 *)
Definition mount_effect : list Effect :=
  fetchSymbols ++ fetchAlerts ++ fetchRecentAnalyses initial_symbol.

(** *** Alerts *)

(** [Date.now()] *)
Definition Date_now (st : State) : N := clock st.

(** The record built at lines 192-199 *)
Definition alertData (st : State) : AlertData :=
  {| id := int_toString (Z.of_N (Date_now st));
     alert_symbol := selectedSymbol st;
     condition := alertType st;
     target_price := parseFloat (alertPrice st);
     current_price := opt_prop (currentData st) "price";
     triggered := false |}.

(** [createPriceAlert], lines 185-201, up to the [await] *)
Definition createPriceAlert (st : State) : State * list Effect :=
  if negb (truthy_string (alertPrice st)) || negb (truthy (currentData st))
  then (st, [ToastError "Please enter a valid price"])
  else (st, [HttpPost (API P +:+ "/alerts") (alertData st)]).

(** ... after the [await], lines 202-204, when the request succeeds *)
Definition createPriceAlert_fulfilled (st : State) : State * list Effect :=
  (set_alertPrice "" st,
   ToastSuccess "Price alert created successfully!" :: fetchAlerts).

(** ... and the [catch], lines 205-208, when it fails *)
Definition createPriceAlert_rejected (st : State) : State * list Effect :=
  (st, [ToastError "Failed to create alert"]).

(** The outcome of a request: the response's [data], or a failure. *)
Inductive Response : Type :=
  | Fulfilled (data : JsValue)
  | Rejected.

(** [fetchSymbols] after its [await], lines 77-81: reading
    [response.data.symbols] throws when [data] is [null]. *)
Definition fetchSymbols_done (r : Response) (st : State)
  : State * list Effect :=
  match r with
  | Fulfilled data =>
      match prop data "symbols" with
      | Some v => (set_symbols v st, [])
      | None => (st, [ToastError "Failed to fetch symbols"])
      end
  | Rejected => (st, [ToastError "Failed to fetch symbols"])
  end.

(** [fetchAlerts] after its [await], lines 87-90 *)
Definition fetchAlerts_done (r : Response) (st : State)
  : State * list Effect :=
  match r with
  | Fulfilled data =>
      match prop data "alerts" with
      | Some v => (set_alerts (or_else v (JArr [])) st, [])
      | None => (st, [])
      end
  | Rejected => (st, [])
  end.

(** [fetchRecentAnalyses] after its [await], lines 96-99 *)
Definition fetchRecentAnalyses_done (r : Response) (st : State)
  : State * list Effect :=
  match r with
  | Fulfilled data =>
      match prop data "analyses" with
      | Some v => (set_recentAnalyses (or_else v (JArr [])) st, [])
      | None => (st, [])
      end
  | Rejected => (st, [])
  end.

(** *** The component as a machine *)

(** What can happen to a component: the user's actions, the responses
    to its requests, the events of its sockets and timers, and the
    passing of time.  A response event may arrive at any time; the model
    does not track which requests are in flight. *)
Inductive Event : Type :=
  | Mount
  | Unmount
  | SelectSymbol (s : string)
  | ChangeAlertPrice (s : string)
  | ChangeAlertType (s : string)
  | ClickCreateAlert
  | SymbolsResponse (r : Response)
  | AlertsResponse (r : Response)
  | AnalysesResponse (r : Response)
  | AlertPostFulfilled
  | AlertPostRejected
  | WsOpened (ws : nat)
  | WsMessage (ws : nat) (text : option JsValue)
  | WsErrored (ws : nat)
  | WsClosed (ws : nat)
  | TimerFired (t : nat)
  | Elapse (ms : N).

Definition is_closed (ws : WebSocket) : bool :=
  match readyState ws with
  | CLOSED => true
  | _ => false
  end.

Definition set_socket (i : nat) (ws : WebSocket) (st : State) : State :=
  set_sockets (<[i := ws]> (sockets st)) st.

Definition find_timer (t : nat) (st : State) : option Timer :=
  List.find (fun tm => timer_id tm =? t) (timers st).

Definition remove_timer (t : nat) (st : State) : State :=
  set_timers (filter (fun tm => timer_id tm <> t) (timers st)) st.

(** One event.  The user acts on a mounted component only; React runs
    the cleanup of the symbol effect and then the effect itself when
    [selectedSymbol] has changed, and the cleanup alone at unmount.  The
    browser delivers [open] to a connecting socket, [message] to an open
    one, [close] once to a socket, and runs a timer's callback when it
    is due.  State updates of an unmounted component are kept in the
    record, where nothing renders them.  A render that throws is not
    followed up: React would remove the tree and run the cleanup, the
    machine keeps the component, so it runs every sequence of events
    the program can, and more. *)
Definition step (st : State) (ev : Event) : State * list Effect :=
  match ev with
  | Mount =>
      match lifecycle st with
      | Created =>
          let '(st1, e1) := symbol_effect (set_lifecycle Mounted st) in
          (st1, mount_effect ++ e1)
      | _ => (st, [])
      end
  | Unmount =>
      match lifecycle st with
      | Mounted => symbol_cleanup (set_lifecycle Unmounted st)
      | _ => (st, [])
      end
  | SelectSymbol s =>
      match lifecycle st with
      | Mounted =>
          if String.eqb s (selectedSymbol st) then (st, [])
          else
            let '(st1, e1) := symbol_cleanup (set_selectedSymbol s st) in
            let '(st2, e2) := symbol_effect st1 in
            (st2, e1 ++ e2)
      | _ => (st, [])
      end
  | ChangeAlertPrice s =>
      match lifecycle st with
      | Mounted => (set_alertPrice s st, [])
      | _ => (st, [])
      end
  | ChangeAlertType s =>
      match lifecycle st with
      | Mounted => (set_alertType s st, [])
      | _ => (st, [])
      end
  | ClickCreateAlert =>
      match lifecycle st with
      | Mounted => createPriceAlert st
      | _ => (st, [])
      end
  | SymbolsResponse r => fetchSymbols_done r st
  | AlertsResponse r => fetchAlerts_done r st
  | AnalysesResponse r => fetchRecentAnalyses_done r st
  | AlertPostFulfilled => createPriceAlert_fulfilled st
  | AlertPostRejected => createPriceAlert_rejected st
  | WsOpened i =>
      match sockets st !! i with
      | Some ws =>
          match readyState ws with
          | CONNECTING => onopen ws (set_socket i (with_readyState OPEN ws) st)
          | _ => (st, [])
          end
      | None => (st, [])
      end
  | WsMessage i text =>
      match sockets st !! i with
      | Some ws =>
          match readyState ws with
          | OPEN => onmessage text st
          | _ => (st, [])
          end
      | None => (st, [])
      end
  | WsErrored i =>
      match sockets st !! i with
      | Some ws => if is_closed ws then (st, []) else onerror st
      | None => (st, [])
      end
  | WsClosed i =>
      match sockets st !! i with
      | Some ws =>
          if is_closed ws then (st, [])
          else onclose ws (set_socket i (with_readyState CLOSED ws) st)
      | None => (st, [])
      end
  | TimerFired t =>
      match find_timer t st with
      | Some tm =>
          if (due tm <=? clock st)%N
          then connectWebSocket (reconnect_symbol tm) (remove_timer t st)
          else (st, [])
      | None => (st, [])
      end
  | Elapse ms => (set_clock (clock st + ms)%N st, [])
  end.

(** A sequence of events, with the calls of each event in order. *)
Fixpoint run (st : State) (evs : list Event) : State * list Effect :=
  match evs with
  | [] => (st, [])
  | ev :: rest =>
      let '(st1, e1) := step st ev in
      let '(st2, e2) := run st1 rest in
      (st2, e1 ++ e2)
  end.

Definition state_after (evs : list Event) : State :=
  fst (run (initial_state P) evs).

(** The [message] events that deliver the payloads [msgs] on socket
    [ws], in order. *)
Definition messages (ws : nat) (msgs : list JsValue) : list Event :=
  map (fun data => WsMessage ws (Some data)) msgs.

Definition is_WsConstruct (e : Effect) : bool :=
  match e with
  | WsConstruct _ _ => true
  | _ => false
  end.

Definition is_HttpPost (e : Effect) : bool :=
  match e with
  | HttpPost _ _ => true
  | _ => false
  end.

Definition is_HttpGet (e : Effect) : bool :=
  match e with
  | HttpGet _ => true
  | _ => false
  end.

(** *** Conditions on the sockets and timers of a state *)

(** No socket but the one [wsRef] holds is live. *)
Definition only_wsRef_live (st : State) : Prop :=
  forall i ws, sockets st !! i = Some ws -> live ws = true -> wsRef st = Some i.

Definition none_live (st : State) : Prop :=
  forall i ws, sockets st !! i = Some ws -> live ws = false.

(** Every socket was constructed, without an exception, for the stream
    of the symbol its handlers hold. *)
Definition sockets_wf (st : State) : Prop :=
  forall i ws, sockets st !! i = Some ws ->
    url ws = market_url (symbol ws) /\ ws_rejects P (url ws) = false.

(** The ids of the pending timers are below the next id to hand out. *)
Definition timers_fresh (st : State) : Prop :=
  forall tm, tm ∈ timers st -> timer_id tm < next_timer_id st.

End Handlers.

(** *** Comparisons *)

(** [ToNumber] of a value that is [undefined], [null], a boolean or a
    number.  The conversions of strings, arrays and objects are not
    modelled: [None]. *)
Definition to_number (v : JsValue) : option Number :=
  match v with
  | JUndefined => Some NaN
  | JNull => Some (Fin (0 # 1))
  | JBool b => Some (Fin (if b then 1 # 1 else 0 # 1))
  | JNum n => Some n
  | JStr _ | JArr _ | JObj _ => None
  end.

(** [x < y] on numbers: false as soon as one of them is [NaN]. *)
Definition number_lt (x y : Number) : bool :=
  match x, y with
  | NaN, _ | _, NaN => false
  | PosInf, _ => false
  | _, NegInf => false
  | NegInf, _ => true
  | _, PosInf => true
  | Fin a, Fin b => negb (Qle_bool b a)
  end.

(** [a < b] and [a > b], where both conversions are modelled. *)
Definition js_lt (a b : JsValue) : option bool :=
  x ← to_number a; y ← to_number b; Some (number_lt x y).

Definition js_gt (a b : JsValue) : option bool :=
  x ← to_number a; y ← to_number b; Some (number_lt y x).

(** *** The rest of the price and RSI cards *)

Inductive Icon : Type := Activity | TrendingUp | TrendingDown.

(** [getTrendIcon], lines 211-216 *)
Definition getTrendIcon (current previous : JsValue) : option Icon :=
  if negb (truthy previous) then Some Activity
  else
    rising ← js_gt current previous;
    Some (if (rising : bool) then TrendingUp else TrendingDown).

(** [arr[i]]: [None], that is [undefined], outside the array. *)
Definition at_index {A : Type} (arr : list A) (i : Z) : option A :=
  if (i <? 0)%Z then None else arr !! Z.to_nat i.

(** [priceHistory[priceHistory.length - 2]?.price] *)
Definition previous_price (history : list Sample) : JsValue :=
  match at_index history (Z.of_nat (length history) - 2) with
  | Some s => price s
  | None => JUndefined
  end.

(** The icon of the Current Price card, line 317 *)
Definition trend_icon (st : State) : option Icon :=
  getTrendIcon (opt_prop (currentData st) "price")
               (previous_price (priceHistory st)).

(** Whether [v.toLocaleString()] returns, for a value parsed from JSON.
    It is a [TypeError] on [null] and [undefined]; an object with a key
    [toLocaleString] or [toString] of its own hides the method with
    something that cannot be called; an array asks each of its elements
    but [null]. *)
Fixpoint toLocaleString_returns (v : JsValue) : bool :=
  match v with
  | JUndefined | JNull => false
  | JBool _ | JNum _ | JStr _ => true
  | JArr items =>
      (fix each (l : list JsValue) : bool :=
         match l with
         | [] => true
         | JUndefined :: r | JNull :: r => each r
         | x :: r => toLocaleString_returns x && each r
         end) items
  | JObj fields =>
      match own_property "toLocaleString" fields,
            own_property "toString" fields with
      | JUndefined, JUndefined => true
      | _, _ => false
      end
  end.

(** A text made by a locale-aware formatter of the platform:
    [v.toLocaleString()], or [new Date(v).toLocaleTimeString()]. *)
Inductive LocaleText : Type :=
  | Plain (s : string)
  | LocaleString (v : JsValue)
  | LocaleTimeString (v : JsValue).

(** The three lines of the Current Price card, lines 321-329. *)
Record PriceCard : Type := {
  price_line : Rendered;
  volume_line : LocaleText;
  time_line : LocaleText
}.

(** [None] when evaluating one of the lines throws, and with it the
    render. *)
Definition price_card (st : State) : option PriceCard :=
  if truthy (currentData st)
  then
    p ← prop (currentData st) "price";
    price ← formatPrice p;
    v ← prop (currentData st) "volume";
    t ← prop (currentData st) "timestamp";
    if toLocaleString_returns v && to_primitive_returns t
    then Some {| price_line := price; volume_line := LocaleString v;
                 time_line := LocaleTimeString t |}
    else None
  else Some {| price_line := Text "$0.00"; volume_line := Plain "0";
               time_line := Plain "No data" |}.

(** [getRSIColor], lines 231-236 *)
Definition getRSIColor (rsi : JsValue) : option string :=
  if negb (truthy rsi) then Some "text-gray-500"
  else
    high ← js_gt rsi (JNum (Fin (70 # 1)));
    if (high : bool) then Some "text-red-500"
    else
      low ← js_lt rsi (JNum (Fin (30 # 1)));
      if (low : bool) then Some "text-green-500" else Some "text-yellow-500".

(** [getIndicatorStatus], lines 238-249 *)
Definition getIndicatorStatus (indicator : string) (value : JsValue)
  : option string :=
  if negb (truthy value) then Some "neutral"
  else if String.eqb indicator "rsi" then
    high ← js_gt value (JNum (Fin (70 # 1)));
    if (high : bool) then Some "overbought"
    else
      low ← js_lt value (JNum (Fin (30 # 1)));
      if (low : bool) then Some "oversold" else Some "neutral"
  else Some "neutral".

(** The RSI card, lines 342-353: the colour of the text, the text, the
    value given to the progress bar and the status.  The card is [None]
    when evaluating it throws; a colour or status of [None] is one the
    comparisons above do not model. *)
Record RsiCard : Type := {
  rsi_colour : option string;
  rsi_text : Rendered;
  rsi_progress : JsValue;
  rsi_status : option string
}.

Definition rsi_card (indicators : JsValue) : option RsiCard :=
  rsi ← prop indicators "rsi";
  text ← formatNumber rsi;
  Some {| rsi_colour := getRSIColor rsi;
          rsi_text := text;
          rsi_progress := or_else rsi (JNum (Fin (0 # 1)));
          rsi_status := getIndicatorStatus "rsi" rsi |}.

Definition is_nullish (v : JsValue) : bool :=
  match v with
  | JUndefined | JNull => true
  | _ => false
  end.

(** Whether evaluating the row of an alert throws. *)
Definition alert_throws (alert : JsValue) : bool :=
  is_nullish alert
  || negb (to_primitive_returns (opt_prop alert "target_price"))
  || negb (to_primitive_returns (opt_prop alert "created_at")).

(** *** More conditions on states and calls *)

(** The index of the socket constructed last. *)
Definition latest_socket (st : State) : option nat :=
  match length (sockets st) with
  | 0 => None
  | S n => Some n
  end.

Definition all_closed (st : State) : Prop :=
  forall i ws, sockets st !! i = Some ws -> readyState ws = CLOSED.

(** An unmounted component with nothing left that could call back. *)
Definition quiescent (st : State) : Prop :=
  lifecycle st = Unmounted /\ timers st = [] /\ all_closed st.

(** Timer ids are positive: the next one to hand out, and the one the
    ref holds. *)
Definition ids_positive (st : State) : Prop :=
  0 < next_timer_id st
  /\ forall t, reconnectTimeoutRef st = Some t -> 0 < t.

Definition is_SetTimeout (e : Effect) : bool :=
  match e with
  | SetTimeout _ _ => true
  | _ => false
  end.

(** The server closes socket [k]; three seconds later timer [k + 1]
    fires. *)
Definition reconnect_cycle (k : nat) : list Event :=
  [WsClosed k; Elapse 3000; TimerFired (S k)].

(** [n] such rounds, from the first socket on. *)
Definition reconnect_cycles (n : nat) : list Event :=
  flat_map reconnect_cycle (seq 0 n).

(** A platform to run examples on. *)
Definition example_platform : Platform :=
  {| BACKEND_URL := "https://api.example.com";
     ws_rejects := fun _ => false;
     start_time := 1700000000000 |}.

(** A [market_data] message with the given price. *)
Definition example_tick (p : Q) : JsValue :=
  JObj [("type", JStr "market_data"); ("symbol", JStr "AAPL");
        ("price", JNum (Fin p)); ("volume", JNum (Fin 1500000));
        ("timestamp", JStr "2024-01-01T00:00:00Z")].

(** An alert as the backend lists it. *)
Definition example_alert (target : Q) : JsValue :=
  JObj [("id", JStr "1700000000000"); ("symbol", JStr "AAPL");
        ("condition", JStr "above"); ("target_price", JNum (Fin target));
        ("current_price", JNum (Fin (19123 # 100)));
        ("triggered", JBool false);
        ("created_at", JStr "2024-01-01T00:00:00Z")].

(** A platform configured with a backend URL that has no scheme: the
    stream URL derived from it is not a [ws:] or [wss:] URL, and the
    constructor throws. *)
Definition unschemed_platform : Platform :=
  {| BACKEND_URL := "localhost:8001";
     ws_rejects := fun u => negb (startsWith u "ws://" || startsWith u "wss://");
     start_time := 1700000000000 |}.

End Dashboard.

(** ** The meeting summarizer (the second [App.js]) *)

Module Summarizer.
Import Js.

(** A [File] of the file input: its name and its content. *)
Record File : Type := {
  name : string;
  content : string
}.

Inductive Effect : Type :=
  | HttpGet (u : string)
  | PostJson (u : string) (title body : string)
  | PostForm (u : string) (title : string) (file : File)
  | ToastSuccess (msg : string)
  | ToastError (msg : string).

Record State : Type := mkState {
  meetingTitle : string;
  meetingContent : string;
  selectedFile : option File;
  isLoading : bool;
  summary : JsValue;
  meetings : JsValue;
  activeTab : string
}.

Definition set_meetingTitle (x : string) (st : State) : State :=
  {| meetingTitle := x; meetingContent := meetingContent st;
     selectedFile := selectedFile st; isLoading := isLoading st;
     summary := summary st; meetings := meetings st;
     activeTab := activeTab st |}.

Definition set_meetingContent (x : string) (st : State) : State :=
  {| meetingTitle := meetingTitle st; meetingContent := x;
     selectedFile := selectedFile st; isLoading := isLoading st;
     summary := summary st; meetings := meetings st;
     activeTab := activeTab st |}.

Definition set_selectedFile (x : option File) (st : State) : State :=
  {| meetingTitle := meetingTitle st; meetingContent := meetingContent st;
     selectedFile := x; isLoading := isLoading st;
     summary := summary st; meetings := meetings st;
     activeTab := activeTab st |}.

Definition set_isLoading (x : bool) (st : State) : State :=
  {| meetingTitle := meetingTitle st; meetingContent := meetingContent st;
     selectedFile := selectedFile st; isLoading := x;
     summary := summary st; meetings := meetings st;
     activeTab := activeTab st |}.

Definition set_summary (x : JsValue) (st : State) : State :=
  {| meetingTitle := meetingTitle st; meetingContent := meetingContent st;
     selectedFile := selectedFile st; isLoading := isLoading st;
     summary := x; meetings := meetings st; activeTab := activeTab st |}.

Definition set_meetings (x : JsValue) (st : State) : State :=
  {| meetingTitle := meetingTitle st; meetingContent := meetingContent st;
     selectedFile := selectedFile st; isLoading := isLoading st;
     summary := summary st; meetings := x; activeTab := activeTab st |}.

Definition set_activeTab (x : string) (st : State) : State :=
  {| meetingTitle := meetingTitle st; meetingContent := meetingContent st;
     selectedFile := selectedFile st; isLoading := isLoading st;
     summary := summary st; meetings := meetings st; activeTab := x |}.


Definition initial_state : State :=
  {| meetingTitle := ""; meetingContent := ""; selectedFile := None;
     isLoading := false; summary := JNull; meetings := JArr [];
     activeTab := "summarize" |}.

(** The outcome of a request: the response's [data], or a failure. *)
Inductive Response : Type :=
  | Fulfilled (data : JsValue)
  | Rejected.

Section Handlers.
Context (BACKEND_URL : string).

Definition API : string := BACKEND_URL +:+ "/api".

(** [fetchMeetings], lines 30-37: the request, and its continuation *)
Definition fetchMeetings : list Effect := [HttpGet (API +:+ "/meetings")].

Definition fetchMeetings_done (r : Response) (st : State)
  : State * list Effect :=
  match r with
  | Fulfilled data => (set_meetings data st, [])
  | Rejected => (st, [])
  end.

(** [handleTextSummary], lines 39-50, up to the [await] *)
Definition handleTextSummary (st : State) : State * list Effect :=
  if negb (truthy_string (trim (meetingTitle st)))
     || negb (truthy_string (trim (meetingContent st)))
  then (st, [ToastError "Please provide both title and content"])
  else (set_isLoading true st,
        [PostJson (API +:+ "/summarize-text")
                  (meetingTitle st) (meetingContent st)]).

(** ... and after it, lines 52-67 *)
Definition handleTextSummary_done (r : Response) (st : State)
  : State * list Effect :=
  match r with
  | Fulfilled data =>
      (set_isLoading false
         (set_meetingContent ""
            (set_meetingTitle ""
               (set_activeTab "results" (set_summary data st)))),
       ToastSuccess "Meeting summarized successfully!" :: fetchMeetings)
  | Rejected =>
      (set_isLoading false st,
       [ToastError "Failed to summarize meeting. Please try again."])
  end.

(** [handleFileSummary], lines 70-86, up to the [await] *)
Definition handleFileSummary (st : State) : State * list Effect :=
  match truthy_string (trim (meetingTitle st)), selectedFile st with
  | true, Some file =>
      (set_isLoading true st,
       [PostForm (API +:+ "/summarize-file") (meetingTitle st) file])
  | _, _ => (st, [ToastError "Please provide both title and file"])
  end.

(** ... and after it, lines 88-103 *)
Definition handleFileSummary_done (r : Response) (st : State)
  : State * list Effect :=
  match r with
  | Fulfilled data =>
      (set_isLoading false
         (set_selectedFile None
            (set_meetingTitle ""
               (set_activeTab "results" (set_summary data st)))),
       ToastSuccess "File processed and summarized successfully!"
         :: fetchMeetings)
  | Rejected =>
      (set_isLoading false st,
       [ToastError "Failed to process file. Please try again."])
  end.

(** The extensions [handleFileChange] lets through, line 109 *)
Definition accepted_name (n : string) : bool :=
  endsWith n ".txt" || endsWith n ".docx".

(** [handleFileChange], lines 106-115; [files0] is [e.target.files[0]],
    [None] when the input holds no file. *)
Definition handleFileChange (files0 : option File) (st : State)
  : State * list Effect :=
  match files0 with
  | Some file =>
      if negb (endsWith (name file) ".txt")
         && negb (endsWith (name file) ".docx")
      then (st, [ToastError "Please select a .txt or .docx file"])
      else (set_selectedFile (Some file) st, [])
  | None => (st, [])
  end.

(** What can happen to the component.  A response event may arrive at
    any time; the model does not track which requests are in flight. *)
Inductive Event : Type :=
  | Mount
  | ChangeTitle (s : string)
  | ChangeContent (s : string)
  | ChangeFile (files0 : option File)
  | ClickSummarizeText
  | ClickProcessFile
  | SelectTab (tab : string)
  | OpenMeeting (meeting : JsValue)
  | MeetingsResponse (r : Response)
  | TextSummaryResponse (r : Response)
  | FileSummaryResponse (r : Response).

Definition step (st : State) (ev : Event) : State * list Effect :=
  match ev with
  | Mount => (st, fetchMeetings)
  | ChangeTitle s => (set_meetingTitle s st, [])
  | ChangeContent s => (set_meetingContent s st, [])
  | ChangeFile files0 => handleFileChange files0 st
  | ClickSummarizeText => handleTextSummary st
  | ClickProcessFile => handleFileSummary st
  | SelectTab tab => (set_activeTab tab st, [])
  | OpenMeeting meeting =>
      (set_activeTab "results" (set_summary meeting st), [])
  | MeetingsResponse r => fetchMeetings_done r st
  | TextSummaryResponse r => handleTextSummary_done r st
  | FileSummaryResponse r => handleFileSummary_done r st
  end.

Fixpoint run (st : State) (evs : list Event) : State * list Effect :=
  match evs with
  | [] => (st, [])
  | ev :: rest =>
      let '(st1, e1) := step st ev in
      let '(st2, e2) := run st1 rest in
      (st2, e1 ++ e2)
  end.

(** The files a list of calls submits to the backend. *)
Fixpoint submitted_files (es : list Effect) : list File :=
  match es with
  | PostForm _ _ file :: rest => file :: submitted_files rest
  | _ :: rest => submitted_files rest
  | [] => []
  end.

(** The file held for upload, if any, has an accepted name. *)
Definition selected_accepted (st : State) : Prop :=
  forall file, selectedFile st = Some file -> accepted_name (name file) = true.

End Handlers.

(** A string of white space only, the empty string included. *)
Definition blank (s : string) : bool :=
  forallb isWhiteSpace (list_ascii_of_string s).

(** Two files to run examples on. *)
Definition example_notes : File :=
  {| name := "notes.txt"; content := "Agenda: budget review" |}.

Definition example_slides : File :=
  {| name := "slides.pdf"; content := "%PDF-1.7" |}.

End Summarizer.

(** * Properties *)

(** ** Lists *)

Section Lists.
Context {A : Type}.

Lemma slice_last_50 (l : list A) :
  Js.slice l (-50) None = drop (length l - 50) l.
Proof.
  unfold Js.slice, Js.relative_index.
  change (-50 <? 0)%Z with true. cbv iota.
  replace (Z.to_nat (Z.max (Z.of_nat (length l) + -50) 0))
    with (length l - 50) by lia.
  apply take_ge. rewrite length_drop. lia.
Qed.

Lemma slice_first_5 (l : list A) :
  Js.slice l 0 (Some 5%Z) = take 5 l.
Proof.
  unfold Js.slice, Js.relative_index.
  change (0 <? 0)%Z with false. change (5 <? 0)%Z with false. cbv iota.
  replace (Z.to_nat (Z.min 0 (Z.of_nat (length l)))) with 0 by lia.
  rewrite drop_0.
  replace (Z.to_nat (Z.min 5 (Z.of_nat (length l))
                     - Z.min 0 (Z.of_nat (length l))))
    with (5 `min` length l) by lia.
  destruct (Nat.le_ge_cases 5 (length l)).
  - by rewrite Nat.min_l.
  - rewrite Nat.min_r by done. rewrite !take_ge; auto.
Qed.

(** Keeping the newest [n] of a window that already keeps the newest [n]
    is keeping the newest [n] of everything. *)
Lemma drop_newest_snoc (n : nat) (l : list A) (x : A) :
  0 < n ->
  drop (length (drop (length l - n) l ++ [x]) - n)
       (drop (length l - n) l ++ [x])
  = drop (length (l ++ [x]) - n) (l ++ [x]).
Proof.
  intros Hn. rewrite !length_app, length_drop. simpl.
  destruct (Nat.le_gt_cases (length l) n) as [Hle|Hgt].
  - replace (length l - n) with 0 by lia. rewrite drop_0.
    by replace (length l - 0 + 1 - n) with (length l + 1 - n) by lia.
  - replace (length l - (length l - n) + 1 - n) with 1 by lia.
    rewrite !drop_app_le by (rewrite ?length_drop; lia).
    rewrite drop_drop. f_equal. f_equal. lia.
Qed.

End Lists.

(** ** The dashboard *)

Module DashboardFacts.
Import Js Dashboard.

(** Opens every handler [step] dispatches to, and splits on the tests
    the handlers make. *)
Ltac unfold_handlers :=
  unfold symbol_effect, symbol_cleanup, connectWebSocket, ws_close,
    clear_timeout, createPriceAlert, createPriceAlert_fulfilled,
    createPriceAlert_rejected, fetchSymbols_done, fetchAlerts_done,
    fetchRecentAnalyses_done, onopen, onmessage, handleWebSocketMessage,
    onclose, onerror, remove_timer, set_socket.

Ltac handler_cases := repeat (case_match; simplify_option_eq).

Section Runs.
Context (P : Platform).

Lemma run_app (st : State) (evs1 evs2 : list Event) :
  run P st (evs1 ++ evs2)
  = let '(st1, e1) := run P st evs1 in
    let '(st2, e2) := run P st1 evs2 in
    (st2, e1 ++ e2).
Proof.
  revert st. induction evs1 as [|ev evs1 IH]; intros st; simpl.
  - by destruct (run P st evs2).
  - destruct (step P st ev) as [st1 e1]. rewrite IH.
    destruct (run P st1 evs1) as [st2 e2].
    destruct (run P st2 evs2) as [st3 e3]. by rewrite app_assoc.
Qed.

Lemma run_snoc (st : State) (evs : list Event) (ev : Event) :
  fst (run P st (evs ++ [ev])) = fst (step P (fst (run P st evs)) ev).
Proof.
  rewrite run_app. destruct (run P st evs) as [st1 e1]. simpl.
  by destruct (step P st1 ev).
Qed.

(** A property of the initial state that every event preserves holds
    after every sequence of events. *)
Lemma invariant_after (I : State -> Prop) :
  I (initial_state P) ->
  (forall st ev, I st -> I (fst (step P st ev))) ->
  forall evs, I (state_after P evs).
Proof.
  intros H0 Hstep evs. unfold state_after.
  induction evs as [|ev evs IH] using rev_ind; [done|].
  rewrite run_snoc. by apply Hstep.
Qed.

(** *** What the handlers change *)

Lemma push_history_newest (data : JsValue) (prev : list Sample) :
  push_history data prev
  = drop (length (prev ++ [sample_of data]) - 50) (prev ++ [sample_of data]).
Proof. unfold push_history. apply slice_last_50. Qed.

Lemma push_history_length (data : JsValue) (prev : list Sample) :
  length (push_history data prev) <= 50.
Proof. rewrite push_history_newest, length_drop. lia. Qed.

(** An event leaves the history alone or pushes one sample. *)
Lemma step_priceHistory (st : State) (ev : Event) :
  priceHistory (fst (step P st ev)) = priceHistory st
  \/ exists data,
       priceHistory (fst (step P st ev)) = push_history data (priceHistory st).
Proof.
  destruct ev; simpl;
    unfold_handlers; handler_cases; eauto.
Qed.

Lemma history_bound (evs : list Event) :
  length (priceHistory (state_after P evs)) <= 50.
Proof.
  apply invariant_after with (I := fun st => length (priceHistory st) <= 50).
  - simpl. lia.
  - intros st ev Hst.
    destruct (step_priceHistory st ev) as [->|[data ->]]; [done|].
    apply push_history_length.
Qed.

Lemma step_market_data (st : State) (ws : nat) (sock : WebSocket)
    (data : JsValue) :
  sockets st !! ws = Some sock ->
  readyState sock = OPEN ->
  has_type data "market_data" = true ->
  step P st (WsMessage ws (Some data))
  = (set_priceHistory (push_history data (priceHistory st))
       (set_indicators (or_else (opt_prop data "indicators") (JObj []))
          (set_currentData data st)), []).
Proof.
  intros Hws Hopen Hty. simpl. rewrite Hws, Hopen.
  unfold onmessage, handleWebSocketMessage, has_type in *.
  destruct (prop data "type") as [ty|]; [simpl|done].
  destruct ty; try done. simpl in *.
  apply String.eqb_eq in Hty. by subst.
Qed.

End Runs.

Section Sockets.
Context (P : Platform).

Lemma ws_close_wsRef (i : nat) (st : State) :
  wsRef (fst (ws_close i st)) = wsRef st.
Proof. unfold ws_close. by repeat case_match. Qed.

Lemma ws_close_length (i : nat) (st : State) :
  length (sockets (fst (ws_close i st))) = length (sockets st).
Proof.
  unfold ws_close. repeat case_match; simpl; by rewrite ?length_insert.
Qed.

(** [close()] makes its socket not live and leaves the others alone. *)
Lemma ws_close_lookup (i j : nat) (st : State) (ws : WebSocket) :
  sockets (fst (ws_close i st)) !! j = Some ws ->
  live ws = true ->
  j <> i /\ sockets st !! j = Some ws.
Proof.
  unfold ws_close. intros Hj Hlive.
  destruct (sockets st !! i) as [wi|] eqn:Hi; simpl in Hj.
  - destruct (live wi) eqn:Hwi; simpl in Hj.
    + destruct (decide (j = i)) as [->|Hne].
      * rewrite list_lookup_insert_eq in Hj by (by eapply lookup_lt_Some).
        by simplify_eq.
      * by rewrite list_lookup_insert_ne in Hj.
    + split; [|done]. intros ->. congruence.
  - split; [|done]. intros ->. congruence.
Qed.

Lemma ws_close_only_wsRef_live (i : nat) (st : State) :
  only_wsRef_live st -> only_wsRef_live (fst (ws_close i st)).
Proof.
  intros Hst j ws Hj Hlive. rewrite ws_close_wsRef.
  apply ws_close_lookup in Hj as [_ Hj]; eauto.
Qed.

(** Once the socket [wsRef] holds has been closed, none is live. *)
Lemma close_wsRef_none_live (st : State) :
  only_wsRef_live st ->
  none_live (fst match wsRef st with
                 | Some i => ws_close i st
                 | None => (st, [])
                 end).
Proof.
  intros Hst j ws Hj. destruct (live ws) eqn:Hlive; [exfalso|done].
  destruct (wsRef st) as [i|] eqn:Href; simpl in Hj.
  - apply ws_close_lookup in Hj as [Hne Hj]; [|done].
    specialize (Hst j ws Hj Hlive). congruence.
  - specialize (Hst j ws Hj Hlive). congruence.
Qed.

Lemma connectWebSocket_only_wsRef_live (sym : string) (st : State) :
  only_wsRef_live st -> only_wsRef_live (fst (connectWebSocket P sym st)).
Proof.
  intros Hst. unfold connectWebSocket.
  pose proof (close_wsRef_none_live st Hst) as Hnone.
  destruct (match wsRef st with Some i => ws_close i st | None => (st, []) end)
    as [st1 e1]. simpl in Hnone.
  destruct (ws_rejects P (market_url P sym)); simpl.
  - intros j ws Hj Hlive. simpl in Hj. rewrite (Hnone j ws Hj) in Hlive. done.
  - intros j ws Hj Hlive. simpl in *.
    apply lookup_app_Some in Hj as [Hj|[Hlen Hj]].
    + rewrite (Hnone j ws Hj) in Hlive. done.
    + destruct (j - length (sockets st1)) eqn:Hd; [|done].
      f_equal. lia.
Qed.

Lemma symbol_cleanup_only_wsRef_live (st : State) :
  only_wsRef_live st -> only_wsRef_live (fst (symbol_cleanup st)).
Proof.
  intros Hst. unfold symbol_cleanup.
  pose proof (close_wsRef_none_live st Hst) as Hnone.
  destruct (match wsRef st with Some i => ws_close i st | None => (st, []) end)
    as [st1 e1]. simpl in *.
  assert (only_wsRef_live st1) as H1.
  { intros j ws Hj Hlive. rewrite (Hnone j ws Hj) in Hlive. done. }
  unfold clear_timeout. repeat case_match; simplify_eq/=; done.
Qed.

Lemma symbol_effect_only_wsRef_live (st : State) :
  only_wsRef_live st -> only_wsRef_live (fst (symbol_effect P st)).
Proof.
  intros Hst. unfold symbol_effect.
  case_match; [by apply connectWebSocket_only_wsRef_live|done].
Qed.

End Sockets.

Section Invariants.
Context (P : Platform).

Lemma step_only_wsRef_live (st : State) (ev : Event) :
  only_wsRef_live st -> only_wsRef_live (fst (step P st ev)).
Proof.
  intros Hst. destruct ev; simpl; try done.
  - (* Mount *)
    destruct (lifecycle st); try done.
    pose proof (symbol_effect_only_wsRef_live P (set_lifecycle Mounted st) Hst).
    by destruct (symbol_effect P (set_lifecycle Mounted st)).
  - (* Unmount *)
    destruct (lifecycle st); try done.
    by apply (symbol_cleanup_only_wsRef_live (set_lifecycle Unmounted st)).
  - (* SelectSymbol *)
    destruct (lifecycle st); try done. case_match; [done|].
    pose proof (symbol_cleanup_only_wsRef_live (set_selectedSymbol s st) Hst)
      as H1.
    destruct (symbol_cleanup (set_selectedSymbol s st)) as [st1 e1].
    pose proof (symbol_effect_only_wsRef_live P st1 H1) as H2.
    by destruct (symbol_effect P st1).
  - (* ChangeAlertPrice *) by destruct (lifecycle st).
  - (* ChangeAlertType *) by destruct (lifecycle st).
  - (* ClickCreateAlert *)
    destruct (lifecycle st); try done. unfold createPriceAlert.
    by case_match.
  - unfold fetchSymbols_done. by repeat case_match.
  - unfold fetchAlerts_done. by repeat case_match.
  - unfold fetchRecentAnalyses_done. by repeat case_match.
  - (* WsOpened *)
    destruct (sockets st !! ws) as [w|] eqn:Hw; [|done].
    destruct (readyState w) eqn:Hr; try done.
    intros j wj Hj Hlive. simpl in *.
    destruct (decide (j = ws)) as [->|Hne].
    + apply (Hst ws w Hw). unfold live. by rewrite Hr.
    + rewrite list_lookup_insert_ne in Hj by done. by apply (Hst j wj).
  - (* WsMessage *)
    destruct (sockets st !! ws) as [w|] eqn:Hw; [|done].
    destruct (readyState w); try done.
    unfold onmessage, handleWebSocketMessage. by handler_cases.
  - (* WsErrored *) by repeat case_match.
  - (* WsClosed *)
    destruct (sockets st !! ws) as [w|] eqn:Hw; [|done].
    destruct (is_closed w); [done|].
    intros j wj Hj Hlive. simpl in *.
    destruct (decide (j = ws)) as [->|Hne].
    + rewrite list_lookup_insert_eq in Hj by (by eapply lookup_lt_Some).
      by simplify_eq.
    + rewrite list_lookup_insert_ne in Hj by done. by apply (Hst j wj).
  - (* TimerFired *)
    destruct (find_timer t st); [|done]. case_match; [|done].
    by apply (connectWebSocket_only_wsRef_live P _ (remove_timer t st)).
Qed.

Lemma reachable_only_wsRef_live (evs : list Event) :
  only_wsRef_live (state_after P evs).
Proof.
  apply invariant_after; [|apply step_only_wsRef_live].
  intros i ws Hi. done.
Qed.

End Invariants.

(** C1. For every sequence of inbound [market_data] messages the price
    history holds at most 50 samples, and it is the newest 50 of all the
    samples pushed so far, in the order of their arrival: what is
    dropped is the oldest.  The first part holds after any sequence of
    events at all; the second for the payloads [msgs] delivered on an
    open socket after any events [evs]. *)
Theorem history_window_fifo (P : Platform) :
  (forall evs, length (priceHistory (state_after P evs)) <= 50)
  /\ (forall evs ws sock msgs,
        sockets (state_after P evs) !! ws = Some sock ->
        readyState sock = OPEN ->
        Forall (fun data => has_type data "market_data" = true) msgs ->
        let pushed := priceHistory (state_after P evs) ++ map sample_of msgs in
        priceHistory (state_after P (evs ++ messages ws msgs))
        = drop (length pushed - 50) pushed).
Proof.
  split; [apply history_bound|].
  intros evs ws sock msgs Hws Hopen Hmsgs pushed. subst pushed.
  pose proof (history_bound P evs) as Hb.
  remember (state_after P evs) as st0 eqn:Est0.
  enough (priceHistory (state_after P (evs ++ messages ws msgs))
          = drop (length (priceHistory st0 ++ map sample_of msgs) - 50)
                 (priceHistory st0 ++ map sample_of msgs)
          /\ sockets (state_after P (evs ++ messages ws msgs)) = sockets st0)
    by tauto.
  induction msgs as [|data msgs IH] using rev_ind.
  - unfold messages. simpl. rewrite !app_nil_r, <- Est0. split; [|done].
    replace (length (priceHistory st0) - 50) with 0 by lia.
    by rewrite drop_0.
  - apply Forall_app in Hmsgs as [Hmsgs Hdata].
    rewrite Forall_singleton in Hdata.
    destruct (IH Hmsgs) as [IHh IHs]. clear IH.
    unfold messages in *. rewrite !map_app, !app_assoc. simpl.
    unfold state_after in *. rewrite run_snoc.
    rewrite (step_market_data P _ ws sock data); [|by rewrite IHs|done|done].
    simpl. split; [|done].
    rewrite push_history_newest, IHh.
    by rewrite drop_newest_snoc by lia.
Qed.

Lemma history_window_fifo_witness :
  let evs := [Mount; WsOpened 0] in
  let msgs := [example_tick (19123 # 100); example_tick (190 # 1)] in
  let sock := {| url := "wss://api.example.com/api/ws/market/AAPL";
                 symbol := "AAPL"; readyState := OPEN |} in
  sockets (state_after example_platform evs) !! 0 = Some sock
  /\ readyState sock = OPEN
  /\ Forall (fun data => has_type data "market_data" = true) msgs
  /\ priceHistory (state_after example_platform (evs ++ messages 0 msgs))
     = [sample_of (example_tick (19123 # 100));
        sample_of (example_tick (190 # 1))].
Proof.
  intros evs msgs sock.
  assert (H1 : sockets (state_after example_platform evs) !! 0 = Some sock)
    by reflexivity.
  assert (H2 : readyState sock = OPEN) by reflexivity.
  assert (H3 : Forall (fun data => has_type data "market_data" = true) msgs)
    by (repeat constructor).
  split; [exact H1|]. split; [exact H2|]. split; [exact H3|].
  exact (proj2 (history_window_fifo example_platform) evs 0 sock msgs H1 H2 H3).
Defined.


Section SymbolChange.
Context (P : Platform).

Lemma ws_close_calls (i : nat) (st : State) :
  List.filter is_WsConstruct (snd (ws_close i st)) = [].
Proof. unfold ws_close. by repeat case_match. Qed.

(** What closing the socket of [wsRef] leaves as it was. *)
Lemma close_wsRef_frame (st : State) :
  let r := match wsRef st with
           | Some i => ws_close i st
           | None => (st, [])
           end in
  length (sockets (fst r)) = length (sockets st)
  /\ List.filter is_WsConstruct (snd r) = []
  /\ selectedSymbol (fst r) = selectedSymbol st
  /\ lifecycle (fst r) = lifecycle st.
Proof.
  destruct (wsRef st) as [i|]; simpl; [|done].
  split; [apply ws_close_length|]. split; [apply ws_close_calls|].
  unfold ws_close. by repeat case_match.
Qed.

Lemma symbol_cleanup_spec (st : State) :
  only_wsRef_live st ->
  none_live (fst (symbol_cleanup st))
  /\ length (sockets (fst (symbol_cleanup st))) = length (sockets st)
  /\ List.filter is_WsConstruct (snd (symbol_cleanup st)) = []
  /\ selectedSymbol (fst (symbol_cleanup st)) = selectedSymbol st.
Proof.
  intros Hst. unfold symbol_cleanup.
  pose proof (close_wsRef_none_live st Hst) as Hnone.
  destruct (close_wsRef_frame st) as (Hlen & Hcalls & Hsym & _).
  destruct (match wsRef st with Some i => ws_close i st | None => (st, []) end)
    as [st1 e1]. simpl in *.
  unfold clear_timeout.
  repeat case_match; simplify_eq/=;
    rewrite ?List.filter_app, ?Hcalls; done.
Qed.

Lemma connectWebSocket_spec (sym : string) (st : State) :
  only_wsRef_live st ->
  ws_rejects P (market_url P sym) = false ->
  let n := length (sockets st) in
  let socket := {| url := market_url P sym; symbol := sym;
                   readyState := CONNECTING |} in
  List.filter is_WsConstruct (snd (connectWebSocket P sym st))
  = [WsConstruct n (market_url P sym)]
  /\ wsRef (fst (connectWebSocket P sym st)) = Some n
  /\ (exists closed, sockets (fst (connectWebSocket P sym st)) = closed ++ [socket]
        /\ length closed = n
        /\ forall i ws, closed !! i = Some ws -> live ws = false).
Proof.
  intros Hst Hok. unfold connectWebSocket.
  pose proof (close_wsRef_none_live st Hst) as Hnone.
  destruct (close_wsRef_frame st) as (Hlen & Hcalls & _).
  destruct (match wsRef st with Some i => ws_close i st | None => (st, []) end)
    as [st1 e1]. simpl in *.
  rewrite Hok. simpl. rewrite List.filter_app, Hcalls, Hlen. simpl.
  repeat split. exists (sockets st1). done.
Qed.

End SymbolChange.

(** C2, as the code has it.  After any events no two sockets of a
    component are live at once.  A change of the selected symbol to a
    non-empty symbol whose stream URL the [WebSocket] constructor accepts
    constructs exactly one socket, for the new symbol, which [wsRef] then
    holds, and leaves every socket constructed before it closing or
    closed. *)
Theorem symbol_change_replaces_connection (P : Platform) :
  (forall evs i j wi wj,
     sockets (state_after P evs) !! i = Some wi ->
     sockets (state_after P evs) !! j = Some wj ->
     live wi = true -> live wj = true -> i = j)
  /\ (forall evs s,
        let st := state_after P evs in
        lifecycle st = Mounted ->
        s <> selectedSymbol st ->
        s <> "" ->
        ws_rejects P (market_url P s) = false ->
        let st' := fst (step P st (SelectSymbol s)) in
        let calls := snd (step P st (SelectSymbol s)) in
        let n := length (sockets st) in
        List.filter is_WsConstruct calls = [WsConstruct n (market_url P s)]
        /\ sockets st' !! n
           = Some {| url := market_url P s; symbol := s;
                     readyState := CONNECTING |}
        /\ wsRef st' = Some n
        /\ length (sockets st') = S n
        /\ selectedSymbol st' = s
        /\ forall i ws, i < n -> sockets st' !! i = Some ws -> live ws = false).
Proof.
  split.
  - intros evs i j wi wj Hi Hj Hli Hlj.
    pose proof (reachable_only_wsRef_live P evs) as Hone.
    pose proof (Hone i wi Hi Hli). pose proof (Hone j wj Hj Hlj). congruence.
  - intros evs s st Hmounted Hchange Hs Hok. simpl.
    pose proof (reachable_only_wsRef_live P evs) as Hone. fold st in Hone.
    rewrite Hmounted.
    destruct (String.eqb_spec s (selectedSymbol st)) as [|_]; [done|].
    pose proof (symbol_cleanup_spec (set_selectedSymbol s st) Hone)
      as (Hnone & Hlen & Hcalls & Hsym).
    pose proof (symbol_cleanup_only_wsRef_live (set_selectedSymbol s st) Hone)
      as Hone1.
    destruct (symbol_cleanup (set_selectedSymbol s st)) as [st1 e1].
    simpl in Hnone, Hlen, Hcalls, Hsym, Hone1.
    unfold symbol_effect. rewrite Hsym.
    assert (truthy_string s = true) as ->.
    { unfold truthy_string. by destruct (String.eqb_spec s ""). }
    pose proof (connectWebSocket_spec P s st1 Hone1 Hok)
      as (Hnew & Href & closed & Hsocks & Hclosed & Hdead).
    assert (selectedSymbol (fst (connectWebSocket P s st1)) = s) as Hsel.
    { unfold connectWebSocket.
      destruct (close_wsRef_frame st1) as (_ & _ & Hsym1 & _).
      destruct (match wsRef st1 with
                | Some i => ws_close i st1 | None => (st1, []) end).
      simpl in Hsym1. rewrite Hok. simpl. congruence. }
    destruct (connectWebSocket P s st1) as [st2 e2]. simpl in *.
    rewrite List.filter_app, Hcalls, Hnew, Href, Hsocks, <- Hlen.
    rewrite length_app, Hclosed. simpl.
    repeat split; try done.
    + rewrite lookup_app_r by lia. by rewrite Hclosed, Nat.sub_diag.
    + lia.
    + intros i ws Hi Hlook. rewrite lookup_app_l in Hlook by lia. eauto.
Qed.

Lemma symbol_change_replaces_connection_witness :
  let evs := [Mount; WsOpened 0] in
  let st := state_after example_platform evs in
  lifecycle st = Mounted
  /\ "GOOGL" <> selectedSymbol st
  /\ "GOOGL" <> ""
  /\ ws_rejects example_platform (market_url example_platform "GOOGL") = false
  /\ List.filter is_WsConstruct
       (snd (step example_platform st (SelectSymbol "GOOGL")))
     = [WsConstruct 1 "wss://api.example.com/api/ws/market/GOOGL"].
Proof.
  intros evs st.
  assert (H1 : lifecycle st = Mounted) by reflexivity.
  assert (H2 : "GOOGL" <> selectedSymbol st) by (vm_compute; discriminate).
  assert (H3 : "GOOGL" <> "") by discriminate.
  assert (H4 : ws_rejects example_platform
                 (market_url example_platform "GOOGL") = false)
    by reflexivity.
  split; [exact H1|]. split; [exact H2|]. split; [exact H3|].
  split; [exact H4|].
  exact (proj1 (proj2 (symbol_change_replaces_connection example_platform)
                  evs "GOOGL" H1 H2 H3 H4)).
Defined.

(** C2 as stated fails: selecting the empty symbol changes the selection
    and closes the socket, but the guard of the effect opens none; and
    where the constructor throws, a change to a proper symbol opens none
    either. *)
Lemma symbol_change_without_connection :
  (let st := state_after example_platform [Mount; WsOpened 0] in
   let r := step example_platform st (SelectSymbol "") in
   lifecycle st = Mounted
   /\ selectedSymbol st = "AAPL"
   /\ selectedSymbol (fst r) = ""
   /\ snd r = [WsCloseCall 0]
   /\ List.filter is_WsConstruct (snd r) = [])
  /\ (let st := state_after unschemed_platform [Mount] in
      let r := step unschemed_platform st (SelectSymbol "GOOGL") in
      lifecycle st = Mounted
      /\ selectedSymbol st = "AAPL"
      /\ selectedSymbol (fst r) = "GOOGL"
      /\ List.filter is_WsConstruct (snd r) = []).
Proof. vm_compute. repeat split. Qed.


Section Timers.
Context (P : Platform).

Lemma insert_readyState_shape (l : list WebSocket) (i j : nat)
    (w ws : WebSocket) (r : ReadyState) :
  l !! i = Some w ->
  <[i := with_readyState r w]> l !! j = Some ws ->
  exists ws0, l !! j = Some ws0 /\ url ws = url ws0 /\ symbol ws = symbol ws0.
Proof.
  intros Hi Hj. destruct (decide (j = i)) as [->|Hne].
  - rewrite list_lookup_insert_eq in Hj by (by eapply lookup_lt_Some).
    simplify_eq. by exists w.
  - rewrite list_lookup_insert_ne in Hj by done. by exists ws.
Qed.

Lemma ws_close_shape (i j : nat) (st : State) (ws : WebSocket) :
  sockets (fst (ws_close i st)) !! j = Some ws ->
  exists ws0,
    sockets st !! j = Some ws0 /\ url ws = url ws0 /\ symbol ws = symbol ws0.
Proof.
  unfold ws_close. intros Hj.
  destruct (sockets st !! i) as [wi|] eqn:Hi; simpl in Hj; [|by exists ws].
  destruct (live wi); simpl in Hj; [|by exists ws].
  by eapply insert_readyState_shape.
Qed.

Lemma close_wsRef_shape (st : State) (j : nat) (ws : WebSocket) :
  sockets (fst match wsRef st with
               | Some i => ws_close i st
               | None => (st, [])
               end) !! j = Some ws ->
  exists ws0,
    sockets st !! j = Some ws0 /\ url ws = url ws0 /\ symbol ws = symbol ws0.
Proof.
  destruct (wsRef st) as [i|]; simpl; [apply ws_close_shape|].
  intros Hj. by exists ws.
Qed.

Lemma sockets_wf_shape (st st' : State) :
  (forall j ws, sockets st' !! j = Some ws ->
     exists ws0,
       sockets st !! j = Some ws0 /\ url ws = url ws0 /\ symbol ws = symbol ws0) ->
  sockets_wf P st -> sockets_wf P st'.
Proof.
  intros Hshape Hst j ws Hj.
  destruct (Hshape j ws Hj) as (ws0 & Hj0 & -> & ->). by apply (Hst j).
Qed.

Lemma connectWebSocket_sockets_wf (sym : string) (st : State) :
  sockets_wf P st -> sockets_wf P (fst (connectWebSocket P sym st)).
Proof.
  intros Hst. unfold connectWebSocket.
  pose proof (sockets_wf_shape st _ (close_wsRef_shape st) Hst) as H1.
  destruct (match wsRef st with Some i => ws_close i st | None => (st, []) end)
    as [st1 e1]. simpl in H1.
  destruct (ws_rejects P (market_url P sym)) eqn:Hrej; simpl; [done|].
  intros j ws Hj. simpl in Hj.
  apply lookup_app_Some in Hj as [Hj|[_ Hj]]; [by apply (H1 j)|].
  destruct (j - length (sockets st1)); [|done]. by simplify_eq/=.
Qed.

Lemma symbol_cleanup_sockets_wf (st : State) :
  sockets_wf P st -> sockets_wf P (fst (symbol_cleanup st)).
Proof.
  intros Hst. unfold symbol_cleanup.
  pose proof (sockets_wf_shape st _ (close_wsRef_shape st) Hst) as H1.
  destruct (match wsRef st with Some i => ws_close i st | None => (st, []) end)
    as [st1 e1]. simpl in H1.
  unfold clear_timeout. repeat case_match; simplify_eq/=; done.
Qed.

Lemma symbol_effect_sockets_wf (st : State) :
  sockets_wf P st -> sockets_wf P (fst (symbol_effect P st)).
Proof.
  intros Hst. unfold symbol_effect.
  case_match; [by apply connectWebSocket_sockets_wf|done].
Qed.

Lemma step_sockets_wf (st : State) (ev : Event) :
  sockets_wf P st -> sockets_wf P (fst (step P st ev)).
Proof.
  intros Hst. destruct ev; simpl; try done.
  - destruct (lifecycle st); try done.
    pose proof (symbol_effect_sockets_wf (set_lifecycle Mounted st) Hst).
    by destruct (symbol_effect P (set_lifecycle Mounted st)).
  - destruct (lifecycle st); try done.
    by apply (symbol_cleanup_sockets_wf (set_lifecycle Unmounted st)).
  - destruct (lifecycle st); try done. case_match; [done|].
    pose proof (symbol_cleanup_sockets_wf (set_selectedSymbol s st) Hst) as H1.
    destruct (symbol_cleanup (set_selectedSymbol s st)) as [st1 e1].
    pose proof (symbol_effect_sockets_wf st1 H1).
    by destruct (symbol_effect P st1).
  - by destruct (lifecycle st).
  - by destruct (lifecycle st).
  - destruct (lifecycle st); try done. unfold createPriceAlert.
    by case_match.
  - unfold fetchSymbols_done. by repeat case_match.
  - unfold fetchAlerts_done. by repeat case_match.
  - unfold fetchRecentAnalyses_done. by repeat case_match.
  - destruct (sockets st !! ws) as [w|] eqn:Hw; [|done].
    destruct (readyState w); try done.
    eapply sockets_wf_shape; [|exact Hst]. simpl. intros j wj.
    by apply insert_readyState_shape.
  - destruct (sockets st !! ws) as [w|] eqn:Hw; [|done].
    destruct (readyState w); try done.
    unfold onmessage, handleWebSocketMessage. by handler_cases.
  - by repeat case_match.
  - destruct (sockets st !! ws) as [w|] eqn:Hw; [|done].
    destruct (is_closed w); [done|].
    eapply sockets_wf_shape; [|exact Hst]. simpl. intros j wj.
    by apply insert_readyState_shape.
  - destruct (find_timer t st); [|done]. case_match; [|done].
    by apply (connectWebSocket_sockets_wf _ (remove_timer t st)).
Qed.

Lemma reachable_sockets_wf (evs : list Event) :
  sockets_wf P (state_after P evs).
Proof.
  apply invariant_after; [|apply step_sockets_wf]. by intros i ws Hi.
Qed.

(** [connectWebSocket] and the cleanup hand out no timer ids, and the
    cleanup only removes timers. *)
Lemma connectWebSocket_timers (sym : string) (st : State) :
  timers (fst (connectWebSocket P sym st)) = timers st
  /\ next_timer_id (fst (connectWebSocket P sym st)) = next_timer_id st.
Proof.
  unfold connectWebSocket, ws_close. by repeat (case_match; simplify_eq/=).
Qed.

Lemma symbol_effect_timers_fresh (st : State) :
  timers_fresh st -> timers_fresh (fst (symbol_effect P st)).
Proof.
  intros Hst. unfold symbol_effect. case_match; [|done].
  destruct (connectWebSocket_timers (selectedSymbol st) st) as [Ht Hn].
  intros tm Htm. rewrite Hn. rewrite Ht in Htm. auto.
Qed.

Lemma symbol_cleanup_timers (st : State) :
  timers (fst (symbol_cleanup st)) ⊆ timers st
  /\ next_timer_id (fst (symbol_cleanup st)) = next_timer_id st.
Proof.
  unfold symbol_cleanup, clear_timeout, ws_close.
  repeat (case_match; simplify_eq/=); split; try done;
    intros tm Htm; by apply list_elem_of_filter in Htm as [_ ?].
Qed.

Lemma timers_fresh_subset (st st' : State) :
  timers st' ⊆ timers st ->
  next_timer_id st' = next_timer_id st ->
  timers_fresh st -> timers_fresh st'.
Proof. intros Hsub Hnext Hst tm Htm. rewrite Hnext. auto. Qed.

Lemma step_timers_fresh (st : State) (ev : Event) :
  timers_fresh st -> timers_fresh (fst (step P st ev)).
Proof.
  intros Hst. destruct ev; simpl; try done.
  - destruct (lifecycle st); try done.
    pose proof (symbol_effect_timers_fresh (set_lifecycle Mounted st) Hst).
    by destruct (symbol_effect P (set_lifecycle Mounted st)).
  - destruct (lifecycle st); try done.
    destruct (symbol_cleanup_timers (set_lifecycle Unmounted st)).
    by eapply timers_fresh_subset.
  - destruct (lifecycle st); try done. case_match; [done|].
    destruct (symbol_cleanup_timers (set_selectedSymbol s st)) as [Ht1 Hn1].
    destruct (symbol_cleanup (set_selectedSymbol s st)) as [st1 e1].
    simpl in Ht1, Hn1.
    assert (timers_fresh st1) as H1 by (by eapply timers_fresh_subset).
    pose proof (symbol_effect_timers_fresh st1 H1).
    by destruct (symbol_effect P st1).
  - by destruct (lifecycle st).
  - by destruct (lifecycle st).
  - destruct (lifecycle st); try done. unfold createPriceAlert.
    by case_match.
  - unfold fetchSymbols_done. by repeat case_match.
  - unfold fetchAlerts_done. by repeat case_match.
  - unfold fetchRecentAnalyses_done. by repeat case_match.
  - by repeat case_match.
  - destruct (sockets st !! ws) as [w|] eqn:Hw; [|done].
    destruct (readyState w); try done.
    unfold onmessage, handleWebSocketMessage. by handler_cases.
  - by repeat case_match.
  - destruct (sockets st !! ws) as [w|] eqn:Hw; [|done].
    destruct (is_closed w); [done|].
    intros tm Htm. simpl in *.
    apply elem_of_app in Htm as [Htm|Htm].
    + specialize (Hst tm Htm). lia.
    + apply list_elem_of_singleton in Htm. subst tm. simpl. lia.
  - destruct (find_timer t st); [|done]. case_match; [|done].
    destruct (connectWebSocket_timers (reconnect_symbol t0)
                (remove_timer t st)) as [Ht Hn].
    intros tm Htm. rewrite Hn. rewrite Ht in Htm. simpl in *.
    apply list_elem_of_filter in Htm as [_ Htm]. auto.
Qed.

Lemma reachable_timers_fresh (evs : list Event) :
  timers_fresh (state_after P evs).
Proof.
  apply invariant_after; [|apply step_timers_fresh].
  intros tm Htm. by apply elem_of_nil in Htm.
Qed.

(** A timer with a fresh id, put at the end, is the one its id finds. *)
Lemma find_fresh_timer (tms : list Timer) (tm : Timer) :
  (forall tm0, tm0 ∈ tms -> timer_id tm0 < timer_id tm) ->
  List.find (fun tm0 => timer_id tm0 =? timer_id tm) (tms ++ [tm]) = Some tm.
Proof.
  induction tms as [|tm0 tms IH]; intros Hfresh; simpl.
  - by rewrite Nat.eqb_refl.
  - destruct (Nat.eqb_spec (timer_id tm0) (timer_id tm)) as [Heq|_].
    + specialize (Hfresh tm0 ltac:(left)). lia.
    + apply IH. intros tm1 Htm1. apply Hfresh. by right.
Qed.

End Timers.

(** C4. Whenever a socket of a reachable state goes to closed, its
    [close] handler schedules exactly one timer, due 3000 ms later
    whatever has happened before, whose callback reconnects to the
    symbol of the closed socket: the timer does nothing while less than
    3000 ms have passed, and from then on firing it runs
    [connectWebSocket] for that symbol, which constructs one socket for
    the URL of the closed one. *)
Theorem close_schedules_one_reconnect (P : Platform) (evs : list Event)
    (i : nat) (ws : WebSocket) :
  let st := state_after P evs in
  sockets st !! i = Some ws ->
  is_closed ws = false ->
  let t := next_timer_id st in
  let st1 := fst (step P st (WsClosed i)) in
  snd (step P st (WsClosed i)) = [SetTimeout t 3000]
  /\ timers st1
     = timers st ++ [{| timer_id := t; due := (clock st + 3000)%N;
                        reconnect_symbol := symbol ws |}]
  /\ reconnectTimeoutRef st1 = Some t
  /\ (forall ms, (ms < 3000)%N ->
        let st2 := fst (step P st1 (Elapse ms)) in
        step P st2 (TimerFired t) = (st2, []))
  /\ (forall ms, (3000 <= ms)%N ->
        let st2 := fst (step P st1 (Elapse ms)) in
        step P st2 (TimerFired t)
        = connectWebSocket P (symbol ws) (remove_timer t st2)
        /\ List.filter is_WsConstruct (snd (step P st2 (TimerFired t)))
           = [WsConstruct (length (sockets st)) (url ws)]).
Proof.
  intros st Hi Hopen t st1.
  pose proof (reachable_timers_fresh P evs) as Hfresh. fold st in Hfresh.
  pose proof (reachable_only_wsRef_live P evs) as Hone. fold st in Hone.
  destruct (reachable_sockets_wf P evs i ws Hi) as [Hurl Hok].
  assert (Hstep : step P st (WsClosed i)
                  = onclose ws (set_socket i (with_readyState CLOSED ws) st)).
  { simpl. by rewrite Hi, Hopen. }
  assert (Hfind : forall ms,
            find_timer t (fst (step P st1 (Elapse ms)))
            = Some {| timer_id := t; due := (clock st + 3000)%N;
                      reconnect_symbol := symbol ws |}).
  { intros ms. subst st1. rewrite Hstep. unfold find_timer. simpl.
    by apply (find_fresh_timer (timers st)
                {| timer_id := t; due := (clock st + 3000)%N;
                   reconnect_symbol := symbol ws |}). }
  assert (Hclock : forall ms,
            clock (fst (step P st1 (Elapse ms))) = (clock st + ms)%N).
  { intros ms. subst st1. by rewrite Hstep. }
  split; [by rewrite Hstep|]. split; [subst st1; by rewrite Hstep|].
  split; [subst st1; by rewrite Hstep|]. split.
  - intros ms Hms st2.
    specialize (Hfind ms). specialize (Hclock ms).
    fold st2 in Hfind, Hclock. clearbody st2.
    simpl. rewrite Hfind. simpl. rewrite Hclock.
    by destruct (N.leb_spec (clock st + 3000) (clock st + ms)); [lia|].
  - intros ms Hms st2.
    assert (Hfire : step P st2 (TimerFired t)
                    = connectWebSocket P (symbol ws) (remove_timer t st2)).
    { specialize (Hfind ms). specialize (Hclock ms).
      fold st2 in Hfind, Hclock. clearbody st2.
      simpl. rewrite Hfind. simpl. rewrite Hclock.
      by destruct (N.leb_spec (clock st + 3000) (clock st + ms)); [|lia]. }
    split; [done|]. rewrite Hfire.
    assert (Hone2 : only_wsRef_live (remove_timer t st2)).
    { subst st2 st1.
      apply (step_only_wsRef_live P _ (Elapse ms)).
      by apply step_only_wsRef_live. }
    rewrite Hurl in Hok.
    destruct (connectWebSocket_spec P (symbol ws) (remove_timer t st2)
                Hone2 Hok) as [Hnew _].
    rewrite Hnew, Hurl. f_equal. f_equal.
    subst st2 st1. rewrite Hstep. simpl. by rewrite length_insert.
Qed.

Lemma close_schedules_one_reconnect_witness :
  let evs := [Mount; WsOpened 0] in
  let st := state_after example_platform evs in
  let ws := {| url := "wss://api.example.com/api/ws/market/AAPL";
               symbol := "AAPL"; readyState := OPEN |} in
  sockets st !! 0 = Some ws
  /\ is_closed ws = false
  /\ snd (step example_platform st (WsClosed 0)) = [SetTimeout 1 3000].
Proof.
  intros evs st ws.
  assert (H1 : sockets st !! 0 = Some ws) by reflexivity.
  assert (H2 : is_closed ws = false) by reflexivity.
  split; [exact H1|]. split; [exact H2|].
  exact (proj1 (close_schedules_one_reconnect example_platform evs 0 ws H1 H2)).
Defined.


(** C3 on the code.  The socket for AAPL is closed by a change of symbol
    and the one for GOOGL by the server; each [close] schedules a
    reconnect, and the ref keeps the id of the second only.  Unmounting
    then, before either is due, clears timer 2 and leaves timer 1
    pending; 3000 ms later timer 1 fires and constructs a socket for
    AAPL, which is live although the component is gone. *)
Theorem reconnect_fires_after_teardown :
  let before := [Mount; WsOpened 0; SelectSymbol "GOOGL";
                 WsClosed 0; WsClosed 1] in
  let st := state_after example_platform before in
  let st1 := fst (step example_platform st Unmount) in
  map timer_id (timers st) = [1; 2]
  /\ reconnectTimeoutRef st = Some 2
  /\ snd (step example_platform st Unmount) = [WsCloseCall 1; ClearTimeout 2]
  /\ lifecycle st1 = Unmounted
  /\ timers st1 = [{| timer_id := 1; due := (start_time example_platform + 3000)%N;
                      reconnect_symbol := "AAPL" |}]
  /\ snd (run example_platform st1 [Elapse 3000; TimerFired 1])
     = [WsCloseCall 1;
        WsConstruct 2 "wss://api.example.com/api/ws/market/AAPL"]
  /\ sockets (fst (run example_platform st1 [Elapse 3000; TimerFired 1])) !! 2
     = Some {| url := "wss://api.example.com/api/ws/market/AAPL";
               symbol := "AAPL"; readyState := CONNECTING |}.
Proof. vm_compute. repeat split. Qed.

(** The same without a second timer: the cleanup itself closes the live
    socket, whose [close] event then schedules a reconnect that nothing
    cancels. *)
Lemma teardown_schedules_reconnect :
  let st := state_after example_platform [Mount; WsOpened 0; Unmount] in
  timers st = []
  /\ snd (run example_platform st [WsClosed 0; Elapse 3000; TimerFired 1])
     = [SetTimeout 1 3000; WsCloseCall 0;
        WsConstruct 1 "wss://api.example.com/api/ws/market/AAPL"].
Proof. vm_compute. repeat split. Qed.


Section Quotes.
Context (P : Platform).

(** An event leaves the quote and the indicator set alone, or replaces
    both from a [market_data] message. *)
Lemma step_quote (st : State) (ev : Event) :
  (currentData (fst (step P st ev)) = currentData st
   /\ indicators (fst (step P st ev)) = indicators st)
  \/ exists data,
       has_type data "market_data" = true
       /\ currentData (fst (step P st ev)) = data
       /\ indicators (fst (step P st ev))
          = or_else (opt_prop data "indicators") (JObj []).
Proof.
  destruct ev; simpl;
    unfold_handlers; handler_cases; eauto.
  right. eexists. split; [|done]. unfold has_type. by simplify_option_eq.
Qed.

Lemma has_type_truthy (data : JsValue) (t : string) :
  has_type data t = true -> truthy data = true.
Proof. unfold has_type. by destruct data. Qed.

Lemma or_else_object_truthy (v : JsValue) :
  truthy (or_else v (JObj [])) = true.
Proof. unfold or_else. by destruct (truthy v) eqn:Hv. Qed.

(** The quote is [null] until a [market_data] message has replaced it,
    and the indicator set is never [null] or [undefined]. *)
Lemma reachable_quote (evs : list Event) :
  (currentData (state_after P evs) = JNull
   \/ truthy (currentData (state_after P evs)) = true)
  /\ truthy (indicators (state_after P evs)) = true.
Proof.
  apply invariant_after with
    (I := fun st => (currentData st = JNull \/ truthy (currentData st) = true)
                    /\ truthy (indicators st) = true).
  - split; [by left|done].
  - intros st ev [Hq Hind].
    destruct (step_quote st ev) as [[-> ->]|(data & Hty & -> & ->)]; [done|].
    split; [right; by eapply has_type_truthy|apply or_else_object_truthy].
Qed.

End Quotes.

(** C5. When the alert price is empty or there is no current quote,
    [createPriceAlert] only shows the error toast: the state is left as
    it is and no request is issued, whatever the component's life cycle. *)
Theorem alert_rejected_without_request (P : Platform) (st : State) :
  alertPrice st = "" \/ currentData st = JNull ->
  createPriceAlert P st = (st, [ToastError "Please enter a valid price"])
  /\ fst (step P st ClickCreateAlert) = st
  /\ List.filter is_HttpPost (snd (step P st ClickCreateAlert)) = [].
Proof.
  intros Hguard.
  assert (createPriceAlert P st
          = (st, [ToastError "Please enter a valid price"])) as Hreject.
  { unfold createPriceAlert.
    destruct Hguard as [-> | ->]; [done|]. by rewrite orb_true_r. }
  split; [done|]. simpl. rewrite Hreject. by destruct (lifecycle st).
Qed.

Lemma alert_rejected_without_request_witness :
  let st := state_after example_platform [Mount; ChangeAlertPrice "200"] in
  (alertPrice st = "" \/ currentData st = JNull)
  /\ snd (step example_platform st ClickCreateAlert)
     = [ToastError "Please enter a valid price"].
Proof.
  intros st.
  assert (H : alertPrice st = "" \/ currentData st = JNull)
    by (right; reflexivity).
  split; [exact H|].
  exact (f_equal snd (proj1 (alert_rejected_without_request example_platform st H))).
Defined.

(** C6. In a reachable state with a non-empty alert price and a current
    quote, [createPriceAlert] posts one record to the alerts endpoint:
    its id is the decimal text of the local clock reading, its symbol
    and condition are the selected ones, its target price is
    [parseFloat] of the input, its current price is the price of the
    quote, and it is not triggered.  With condition "above", input "200"
    and a quote at 191.23 the record carries 200, 191.23 and false. *)
Theorem alert_record_fields (P : Platform) (evs : list Event) :
  let st := state_after P evs in
  alertPrice st <> "" ->
  currentData st <> JNull ->
  exists body,
    createPriceAlert P st = (st, [HttpPost (API P +:+ "/alerts") body])
    /\ id body = int_toString (Z.of_N (clock st))
    /\ alert_symbol body = selectedSymbol st
    /\ condition body = alertType st
    /\ target_price body = parseFloat (alertPrice st)
    /\ current_price body = opt_prop (currentData st) "price"
    /\ triggered body = false
    /\ (alertType st = "above" ->
        alertPrice st = "200" ->
        opt_prop (currentData st) "price" = JNum (Fin (19123 # 100)) ->
        condition body = "above"
        /\ target_price body = Fin (200 # 1)
        /\ current_price body = JNum (Fin (19123 # 100))
        /\ triggered body = false).
Proof.
  intros st Hprice Hquote. exists (alertData st).
  destruct (reachable_quote P evs) as [[Hnull|Htruthy] _]; [done|].
  fold st in Htruthy.
  split.
  - unfold createPriceAlert, truthy_string. rewrite Htruthy.
    by destruct (String.eqb_spec (alertPrice st) "").
  - do 6 (split; [done|]).
    intros Habove Hinput Hquoted. simpl.
    by rewrite Habove, Hinput, Hquoted.
Qed.

Lemma alert_record_fields_witness :
  let evs := [Mount; WsOpened 0;
              WsMessage 0 (Some (example_tick (19123 # 100)));
              ChangeAlertPrice "200"] in
  let st := state_after example_platform evs in
  alertPrice st <> ""
  /\ currentData st <> JNull
  /\ exists body,
       createPriceAlert example_platform st
       = (st, [HttpPost "https://api.example.com/api/alerts" body])
       /\ id body = "1700000000000"
       /\ alert_symbol body = "AAPL"
       /\ condition body = "above"
       /\ target_price body = Fin (200 # 1)
       /\ current_price body = JNum (Fin (19123 # 100))
       /\ triggered body = false.
Proof.
  intros evs st.
  assert (H1 : alertPrice st <> "") by (vm_compute; discriminate).
  assert (H2 : currentData st <> JNull) by (vm_compute; discriminate).
  split; [exact H1|]. split; [exact H2|].
  destruct (alert_record_fields example_platform evs H1 H2)
    as (body & Hpost & Hid & Hsym & Hcond & Htarget & Hcur & Htrig & _).
  exists body.
  split; [exact Hpost|]. split; [exact Hid|]. split; [exact Hsym|].
  split; [exact Hcond|]. split; [exact Htarget|]. split; [exact Hcur|].
  exact Htrig.
Defined.

(** C10. When the request of [createPriceAlert] fails, the continuation
    only shows the error toast: the state, and with it the alert price,
    is as before, and the alert list is not fetched.  The price is
    cleared and the list fetched by the continuation of a request that
    succeeded; the part of [createPriceAlert] before the request does
    neither. *)
Theorem failed_alert_leaves_state (P : Platform) (st : State) :
  step P st AlertPostRejected = (st, [ToastError "Failed to create alert"])
  /\ alertPrice (fst (step P st AlertPostFulfilled)) = ""
  /\ snd (step P st AlertPostFulfilled)
     = [ToastSuccess "Price alert created successfully!";
        HttpGet (API P +:+ "/alerts")]
  /\ fst (step P st ClickCreateAlert) = st
  /\ List.filter is_HttpGet (snd (step P st ClickCreateAlert)) = [].
Proof.
  repeat split; simpl; unfold createPriceAlert;
    by repeat case_match.
Qed.


(** ** The view *)

Lemma absent_falsy (v : JsValue) : absent v -> truthy v = false.
Proof. by intros [-> | ->]. Qed.

Lemma truthy_prop (v : JsValue) (k : string) :
  truthy v = true -> prop v k = Some (opt_prop v k).
Proof. unfold opt_prop. by destruct v. Qed.

(** C8, as the code has it.  In the indicator set of a reachable state,
    an absent SMA, EMA or Bollinger band (the band object or its upper
    or lower value missing or null) is shown as the text N/A, the one
    thing its card shows of it.  An absent RSI is shown as the text N/A
    in gray with the status neutral, over a progress bar that is given
    the value 0.  An absent VWAP is shown as the text $0.00. *)
Theorem absent_indicators_render (P : Platform) (evs : list Event) :
  let ind := indicators (state_after P evs) in
  (absent (opt_prop ind "rsi") ->
   rsi_card ind = Some {| rsi_colour := Some "text-gray-500";
                          rsi_text := Text "N/A";
                          rsi_progress := JNum (Fin (0 # 1));
                          rsi_status := Some "neutral" |})
  /\ (absent (opt_prop ind "sma_20") -> sma_card ind = Some (Text "N/A"))
  /\ (absent (opt_prop ind "ema_20") -> ema_card ind = Some (Text "N/A"))
  /\ (absent (opt_prop ind "bollinger_bands")
      \/ absent (opt_prop (opt_prop ind "bollinger_bands") "upper") ->
      bb_upper_card ind = Some (Text "N/A"))
  /\ (absent (opt_prop ind "bollinger_bands")
      \/ absent (opt_prop (opt_prop ind "bollinger_bands") "lower") ->
      bb_lower_card ind = Some (Text "N/A"))
  /\ (absent (opt_prop ind "vwap") -> vwap_card ind = Some (Text "$0.00")).
Proof.
  intros ind.
  destruct (reachable_quote P evs) as [_ Hind]. fold ind in Hind.
  unfold rsi_card, sma_card, ema_card, bb_upper_card, bb_lower_card, vwap_card.
  rewrite !(truthy_prop ind) by done. simpl.
  repeat split.
  - by intros [-> | ->].
  - intros H. by rewrite absent_falsy.
  - intros H. by rewrite absent_falsy.
  - intros [[-> | ->] | H]; [done|done|by rewrite absent_falsy].
  - intros [[-> | ->] | H]; [done|done|by rewrite absent_falsy].
  - intros H. by rewrite absent_falsy.
Qed.

Lemma absent_indicators_render_witness :
  let evs := [Mount; WsOpened 0;
              WsMessage 0 (Some (example_tick (19123 # 100)))] in
  let ind := indicators (state_after example_platform evs) in
  absent (opt_prop ind "rsi")
  /\ absent (opt_prop ind "sma_20")
  /\ rsi_card ind = Some {| rsi_colour := Some "text-gray-500";
                            rsi_text := Text "N/A";
                            rsi_progress := JNum (Fin (0 # 1));
                            rsi_status := Some "neutral" |}
  /\ sma_card ind = Some (Text "N/A").
Proof.
  intros evs ind.
  assert (H1 : absent (opt_prop ind "rsi")) by (left; reflexivity).
  assert (H2 : absent (opt_prop ind "sma_20")) by (left; reflexivity).
  split; [exact H1|]. split; [exact H2|]. split.
  - exact (proj1 (absent_indicators_render example_platform evs) H1).
  - exact (proj1 (proj2 (absent_indicators_render example_platform evs)) H2).
Defined.

(** C8 as stated fails for the volume-weighted price and for the RSI: a
    message without indicators leaves the set empty, and then the VWAP
    card shows $0.00, the text of a zero price, and the progress bar of
    the RSI card is given 0, while the SMA card shows N/A. *)
Lemma absent_vwap_renders_zero :
  let evs := [Mount; WsOpened 0;
              WsMessage 0 (Some (example_tick (19123 # 100)))] in
  let ind := indicators (state_after example_platform evs) in
  ind = JObj []
  /\ opt_prop ind "vwap" = JUndefined
  /\ vwap_card ind = Some (Text "$0.00")
  /\ vwap_card ind <> Some (Text "N/A")
  /\ opt_prop ind "rsi" = JUndefined
  /\ (rsi_progress <$> rsi_card ind) = Some (JNum (Fin (0 # 1)))
  /\ sma_card ind = Some (Text "N/A").
Proof. vm_compute. repeat split. discriminate. Qed.

Section AlertRows.

(** The row of an alert that can be shown. *)
Lemma alert_row_shows (index : nat) (alert : JsValue) :
  alert_throws alert = false ->
  alert_row index alert
  = Some {| row_key := index;
            row_symbol := opt_prop alert "symbol";
            row_condition := opt_prop alert "condition";
            row_target := Currency (opt_prop alert "target_price");
            row_created := opt_prop alert "created_at";
            row_badge := if truthy (opt_prop alert "triggered")
                         then "Triggered" else "Active" |}.
Proof.
  unfold alert_throws, alert_row, formatPrice. intros Hshows.
  apply orb_false_iff in Hshows as [Hshows Hcreated].
  apply orb_false_iff in Hshows as [Hnull Htarget].
  apply negb_false_iff in Hcreated, Htarget.
  assert (forall k, prop alert k = Some (opt_prop alert k)) as Hprop
    by (intros k; unfold opt_prop; by destruct alert).
  rewrite !Hprop. simpl. rewrite Htarget. simpl. by rewrite Hcreated.
Qed.

Lemma alert_row_throws (index : nat) (alert : JsValue) :
  alert_row index alert = None <-> alert_throws alert = true.
Proof.
  destruct (alert_throws alert) eqn:Hthrows.
  - split; [done|]. intros _.
    unfold alert_throws in Hthrows. unfold alert_row, formatPrice.
    destruct (is_nullish alert) eqn:Hnull; [by destruct alert|].
    assert (forall k, prop alert k = Some (opt_prop alert k)) as Hprop
      by (intros k; unfold opt_prop; by destruct alert).
    rewrite !Hprop. simpl in *.
    destruct (to_primitive_returns (opt_prop alert "target_price"));
      simpl in *; [|done].
    by destruct (to_primitive_returns (opt_prop alert "created_at")).
  - rewrite (alert_row_shows index alert Hthrows). split; discriminate.
Qed.

Lemma alert_rows_shows (arr : list JsValue) :
  forall index,
    (forall k alert, arr !! k = Some alert -> alert_throws alert = false) ->
    exists rows,
      alert_rows index arr = Some rows
      /\ length rows = length arr
      /\ forall k alert, arr !! k = Some alert ->
           rows !! k = alert_row (index + k) alert.
Proof.
  induction arr as [|a arr IH]; intros index Hshow; simpl.
  - exists []. repeat split. intros k alert Hk. by destruct k.
  - pose proof (alert_row_shows index a (Hshow 0 a eq_refl)) as Ha.
    destruct (IH (S index) (fun k => Hshow (S k)))
      as (rows & Hrows & Hlen & Hnth).
    rewrite Ha, Hrows. simpl. eexists. split; [done|].
    split; [simpl; by rewrite Hlen|].
    intros [|k] alert Hk; simpl in *.
    + simplify_eq. by rewrite Nat.add_0_r.
    + rewrite (Hnth k alert Hk). f_equal. lia.
Qed.

Lemma alert_rows_shown (arr : list JsValue) :
  forall index rows,
    alert_rows index arr = Some rows ->
    forall k alert, arr !! k = Some alert -> alert_throws alert = false.
Proof.
  induction arr as [|a arr IH]; intros index rows Hrows k alert Hk;
    [by destruct k|]. simpl in Hrows.
  destruct (alert_row index a) as [row|] eqn:Hrow; [|done]. simpl in Hrows.
  destruct (alert_rows (S index) arr) as [rows0|] eqn:Hrows0; [|done].
  destruct k as [|k]; simpl in Hk.
  - simplify_eq. destruct (alert_throws alert) eqn:Hthrows; [|done].
    apply (alert_row_throws index) in Hthrows. congruence.
  - by eapply IH.
Qed.

End AlertRows.

(** C9. The alert list a response carries is held in [alerts] whole.
    The Active Alerts panel shows the placeholder for an empty list;
    for a list whose first five alerts can be shown it shows rows; and
    whenever it shows rows, there is one row for each of the first five
    alerts and no more, the k-th row with the symbol, condition,
    formatted target price, creation date and badge of the k-th alert.
    What follows the fifth alert changes nothing. *)
Theorem alerts_panel_first_five (st : State) (data : JsValue)
    (l : list JsValue) :
  prop data "alerts" = Some (JArr l) ->
  alerts (fst (fetchAlerts_done (Fulfilled data) st)) = JArr l
  /\ (l = [] -> alerts_panel l = Some NoActiveAlerts)
  /\ (l <> [] ->
      (forall k alert, k < 5 -> l !! k = Some alert ->
         alert_throws alert = false) ->
      exists rows, alerts_panel l = Some (AlertRows rows))
  /\ (forall rows,
        alerts_panel l = Some (AlertRows rows) ->
        length rows = length l `min` 5
        /\ forall k alert, k < 5 -> l !! k = Some alert ->
             rows !! k
             = Some {| row_key := k;
                       row_symbol := opt_prop alert "symbol";
                       row_condition := opt_prop alert "condition";
                       row_target := Currency (opt_prop alert "target_price");
                       row_created := opt_prop alert "created_at";
                       row_badge := if truthy (opt_prop alert "triggered")
                                    then "Triggered" else "Active" |})
  /\ (forall extra, 5 <= length l -> alerts_panel (l ++ extra) = alerts_panel l).
Proof.
  intros Hdata.
  assert (Hpanel : forall arr : list JsValue,
            alerts_panel arr
            = if 0 <? length arr
              then rows ← alert_rows 0 (take 5 arr); Some (AlertRows rows)
              else Some NoActiveAlerts).
  { intros arr. unfold alerts_panel. by rewrite slice_first_5. }
  split; [|split; [|split; [|split]]].
  - unfold fetchAlerts_done. by rewrite Hdata.
  - by intros ->.
  - intros Hne Hshow. rewrite Hpanel.
    destruct (Nat.ltb_spec 0 (length l)) as [_|Hlen];
      [|destruct l; [done|simpl in Hlen; lia]].
    destruct (alert_rows_shows (take 5 l) 0) as (rows & Hrows & _).
    { intros k alert Hk. apply lookup_take_Some in Hk as [Hk Hk5]. eauto. }
    exists rows. by rewrite Hrows.
  - intros rows Hrows. rewrite Hpanel in Hrows.
    destruct (0 <? length l); [|done].
    destruct (alert_rows 0 (take 5 l)) as [rows0|] eqn:Hrows0; [|done].
    simpl in Hrows. simplify_eq.
    pose proof (alert_rows_shown _ _ _ Hrows0) as Hshown.
    destruct (alert_rows_shows (take 5 l) 0 Hshown) as (rows' & Hrows' & Hlen & Hnth).
    rewrite Hrows0 in Hrows'. simplify_eq.
    split; [by rewrite Hlen, length_take, Nat.min_comm|].
    intros k alert Hk5 Hk.
    assert (take 5 l !! k = Some alert) as Hk' by (by rewrite lookup_take_lt).
    rewrite (Hnth k alert Hk'). apply alert_row_shows. eauto.
  - intros extra Hlen. rewrite !Hpanel, length_app.
    rewrite take_app_le by done.
    destruct (Nat.ltb_spec 0 (length l)); [|lia].
    by destruct (Nat.ltb_spec 0 (length l + length extra)); [|lia].
Qed.

Lemma alerts_panel_first_five_witness :
  let targets := [200 # 1; 201 # 1; 202 # 1; 203 # 1; 204 # 1; 205 # 1] in
  let l := map example_alert targets in
  let data := JObj [("alerts", JArr l)] in
  let st := initial_state example_platform in
  let row k target :=
    {| row_key := k; row_symbol := JStr "AAPL";
       row_condition := JStr "above";
       row_target := Currency (JNum (Fin target));
       row_created := JStr "2024-01-01T00:00:00Z";
       row_badge := "Active" |} in
  prop data "alerts" = Some (JArr l)
  /\ (forall k alert, k < 5 -> l !! k = Some alert ->
        alert_throws alert = false)
  /\ l <> []
  /\ alerts (fst (fetchAlerts_done (Fulfilled data) st)) = JArr l
  /\ alerts_panel l
     = Some (AlertRows [row 0 (200 # 1); row 1 (201 # 1); row 2 (202 # 1);
                        row 3 (203 # 1); row 4 (204 # 1)]).
Proof.
  intros targets l data st row.
  assert (H1 : prop data "alerts" = Some (JArr l)) by reflexivity.
  assert (H2 : forall k alert, k < 5 -> l !! k = Some alert ->
                 alert_throws alert = false).
  { intros k alert Hk Hl.
    do 5 (destruct k as [|k]; [vm_compute in Hl; by simplify_eq|]). lia. }
  assert (H3 : l <> []) by discriminate.
  split; [exact H1|]. split; [exact H2|]. split; [exact H3|].
  pose proof (alerts_panel_first_five st data l H1)
    as (Hheld & _ & Hshows & Hrows & _).
  split; [exact Hheld|].
  destruct (Hshows H3 H2) as (rows & Hpanel).
  destruct (Hrows rows Hpanel) as (Hlen & Hnth).
  rewrite Hpanel. do 2 f_equal.
  apply list_eq. intros k.
  destruct (decide (k < 5)) as [Hk|Hk].
  - do 5 (destruct k as [|k]; [by rewrite (Hnth _ _ Hk eq_refl)|]). lia.
  - assert (length rows = 5) as Hfive by exact Hlen.
    rewrite (lookup_ge_None_2 rows) by lia.
    symmetry. apply lookup_ge_None_2. simpl. lia.
Defined.

End DashboardFacts.

(** ** The summarizer *)

Module SummarizerFacts.
Import Js Summarizer.

Section Files.
Context (BACKEND_URL : string).

Lemma submitted_files_app (es1 es2 : list Effect) :
  submitted_files (es1 ++ es2) = submitted_files es1 ++ submitted_files es2.
Proof.
  induction es1 as [|e es1 IH]; [done|].
  destruct e; simpl; by rewrite IH.
Qed.

Lemma handleFileChange_accepted (files0 : option File) (st : State) :
  selected_accepted st ->
  selected_accepted (fst (handleFileChange files0 st)).
Proof.
  intros Hst. unfold handleFileChange.
  destruct files0 as [file|]; [|done].
  destruct (endsWith (name file) ".txt") eqn:Htxt;
    destruct (endsWith (name file) ".docx") eqn:Hdocx; simpl; try done;
    intros g Hg; simplify_eq/=; unfold accepted_name;
    rewrite Htxt, Hdocx; done.
Qed.

Lemma step_selected_accepted (st : State) (ev : Event) :
  selected_accepted st -> selected_accepted (fst (step BACKEND_URL st ev)).
Proof.
  intros Hst. destruct ev; simpl; try done.
  - by apply handleFileChange_accepted.
  - unfold handleTextSummary. by case_match.
  - unfold handleFileSummary. by repeat case_match.
  - unfold fetchMeetings_done. by case_match.
  - unfold handleTextSummary_done. by case_match.
  - unfold handleFileSummary_done. case_match; [|done]. by intros g Hg.
Qed.

(** Only [handleFileSummary] submits a file, and it submits the one
    held in [selectedFile]. *)
Lemma step_submits_selected (st : State) (ev : Event) (file : File) :
  file ∈ submitted_files (snd (step BACKEND_URL st ev)) ->
  selectedFile st = Some file.
Proof.
  destruct ev; simpl;
    unfold handleFileChange, handleTextSummary, handleFileSummary,
      fetchMeetings_done, handleTextSummary_done, handleFileSummary_done;
    repeat case_match; simpl; intros Hin;
    try (by apply elem_of_nil in Hin).
  apply list_elem_of_singleton in Hin. by subst.
Qed.

Lemma run_submits_accepted (evs : list Event) :
  forall st file,
    selected_accepted st ->
    file ∈ submitted_files (snd (run BACKEND_URL st evs)) ->
    accepted_name (name file) = true.
Proof.
  induction evs as [|ev evs IH]; intros st file Hst Hin; simpl in Hin.
  - by apply elem_of_nil in Hin.
  - pose proof (step_selected_accepted st ev Hst) as Hst1.
    pose proof (step_submits_selected st ev file) as Hsub.
    destruct (step BACKEND_URL st ev) as [st1 e1].
    specialize (IH st1 file Hst1).
    destruct (run BACKEND_URL st1 evs) as [st2 e2]. simpl in *.
    rewrite submitted_files_app in Hin.
    apply elem_of_app in Hin as [Hin|Hin]; [|by apply IH].
    apply Hst. by apply Hsub.
Qed.

End Files.

(** C7. A file whose name ends neither in .txt nor in .docx is refused
    when it is chosen: [handleFileChange] shows the error toast and
    leaves the state, and with it the file held for upload, as it was.
    Whatever happens to the component, before or after, that file is
    never among the files posted to the summarize-file endpoint. *)
Theorem rejected_file_never_submitted (BACKEND_URL : string) (file : File) :
  endsWith (name file) ".txt" = false ->
  endsWith (name file) ".docx" = false ->
  (forall st,
     handleFileChange (Some file) st
     = (st, [ToastError "Please select a .txt or .docx file"]))
  /\ (forall evs,
        file ∉ submitted_files (snd (run BACKEND_URL initial_state evs)))
  /\ (forall evs u title f,
        PostForm u title f ∈ snd (run BACKEND_URL initial_state evs) ->
        f <> file).
Proof.
  intros Htxt Hdocx.
  assert (Hsubmitted : forall evs,
            file ∉ submitted_files (snd (run BACKEND_URL initial_state evs))).
  { intros evs Hin.
    apply (run_submits_accepted BACKEND_URL evs initial_state) in Hin.
    - unfold accepted_name in Hin. by rewrite Htxt, Hdocx in Hin.
    - by intros g Hg. }
  split; [|split; [done|]].
  - intros st. unfold handleFileChange. by rewrite Htxt, Hdocx.
  - intros evs u title f Hin ->. apply (Hsubmitted evs).
    revert Hin. generalize (snd (run BACKEND_URL initial_state evs)).
    intros es Hin. induction es as [|e es IH]; [by apply elem_of_nil in Hin|].
    apply elem_of_cons in Hin as [<-|Hin]; simpl; [by left|].
    destruct e; auto. right. by apply IH.
Qed.

Lemma rejected_file_never_submitted_witness :
  let evs := [Mount; ChangeTitle "Board meeting";
              ChangeFile (Some example_notes); ChangeFile (Some example_slides);
              ClickProcessFile] in
  endsWith (name example_slides) ".txt" = false
  /\ endsWith (name example_slides) ".docx" = false
  /\ example_slides ∉ submitted_files
                        (snd (run "https://api.example.com" initial_state evs)).
Proof.
  intros evs.
  assert (H1 : endsWith (name example_slides) ".txt" = false) by reflexivity.
  assert (H2 : endsWith (name example_slides) ".docx" = false) by reflexivity.
  split; [exact H1|]. split; [exact H2|].
  exact (proj1 (proj2 (rejected_file_never_submitted
                         "https://api.example.com" example_slides H1 H2)) evs).
Defined.

End SummarizerFacts.

(** ** The dashboard: messages, requests and the quote *)

Module DashboardMore.
Import Js Dashboard DashboardFacts.

(** X1. A message that is neither [market_data] nor [ai_analysis] is
    dropped: a text that does not parse, a [null] payload, a
    [connection] acknowledgement or an unknown type leave the state as
    it is and issue no call, on whatever socket they arrive. *)
Theorem other_messages_are_dropped (P : Platform) (st : State) (ws : nat)
    (text : option JsValue) :
  (forall data, text = Some data ->
     has_type data "market_data" = false
     /\ has_type data "ai_analysis" = false) ->
  step P st (WsMessage ws text) = (st, []).
Proof.
  intros Htext. simpl.
  destruct (sockets st !! ws) as [sock|]; [|done].
  destruct (readyState sock); try done.
  destruct text as [data|]; [|done].
  destruct (Htext data eq_refl) as [Hmd Hai].
  unfold onmessage, handleWebSocketMessage, has_type in *.
  destruct (prop data "type") as [ty|]; [simpl|done].
  rewrite Hmd, Hai. by destruct (strict_eq_string ty "connection").
Qed.

Lemma other_messages_are_dropped_witness :
  let st := state_after example_platform [Mount; WsOpened 0] in
  (forall data, Some JNull = Some data ->
     has_type data "market_data" = false
     /\ has_type data "ai_analysis" = false)
  /\ step example_platform st (WsMessage 0 (Some JNull)) = (st, []).
Proof.
  intros st.
  assert (H : forall data, Some JNull = Some data ->
                has_type data "market_data" = false
                /\ has_type data "ai_analysis" = false)
    by (intros data [= <-]; split; reflexivity).
  split; [exact H|].
  exact (other_messages_are_dropped example_platform st 0 (Some JNull) H).
Defined.

Section Requests.
Context (P : Platform).

(** The requests of one event, whatever the state. *)
Lemma dashboard_step_requests (st : State) (ev : Event) :
  Forall (fun e =>
            match e with
            | HttpGet u =>
                u = API P +:+ "/symbols" \/ u = API P +:+ "/alerts"
                \/ u = API P +:+ "/analysis/" +:+ "AAPL"
            | HttpPost u body =>
                u = API P +:+ "/alerts" /\ triggered body = false
            | _ => True
            end) (snd (step P st ev)).
Proof.
  destruct ev; simpl; unfold_handlers; handler_cases;
    unfold mount_effect, fetchSymbols, fetchAlerts, fetchRecentAnalyses;
    simpl; repeat (constructor; [by eauto 6|]); constructor.
Qed.

End Requests.

(** X2. Whatever happens, the dashboard sends GET requests to three
    URLs only: the symbols, the alerts, and the analyses of AAPL, the
    initial symbol, also after another symbol has been selected; and
    POST requests to the alerts endpoint only, each with an untriggered
    alert. *)
Theorem dashboard_requests (P : Platform) (evs : list Event) :
  Forall (fun e =>
            match e with
            | HttpGet u =>
                u = API P +:+ "/symbols" \/ u = API P +:+ "/alerts"
                \/ u = API P +:+ "/analysis/" +:+ "AAPL"
            | HttpPost u body =>
                u = API P +:+ "/alerts" /\ triggered body = false
            | _ => True
            end) (snd (run P (initial_state P) evs)).
Proof.
  generalize (initial_state P). induction evs as [|ev evs IH]; intros st.
  - constructor.
  - simpl. pose proof (dashboard_step_requests P st ev) as Hstep.
    destruct (step P st ev) as [st1 e1]. specialize (IH st1).
    destruct (run P st1 evs) as [st2 e2]. simpl in *.
    apply Forall_app. by split.
Qed.

Section Quote.
Context (P : Platform).

(** An event leaves quote, indicators and history alone, or replaces
    the first two and pushes onto the third from one message. *)
Lemma step_tick (st : State) (ev : Event) :
  (currentData (fst (step P st ev)) = currentData st
   /\ indicators (fst (step P st ev)) = indicators st
   /\ priceHistory (fst (step P st ev)) = priceHistory st)
  \/ exists data,
       has_type data "market_data" = true
       /\ currentData (fst (step P st ev)) = data
       /\ indicators (fst (step P st ev))
          = or_else (opt_prop data "indicators") (JObj [])
       /\ priceHistory (fst (step P st ev))
          = push_history data (priceHistory st).
Proof.
  destruct ev; simpl; unfold_handlers; handler_cases; eauto.
  right. eexists. split; [|done]. unfold has_type. by simplify_option_eq.
Qed.

Lemma last_push_history (data : JsValue) (prev : list Sample) :
  last (push_history data prev) = Some (sample_of data).
Proof.
  rewrite push_history_newest, length_app. simpl.
  rewrite drop_app_le by lia. apply last_snoc.
Qed.

End Quote.

(** X3. The quote, the indicator set and the history stay in step: in
    every reachable state the indicator set is the one of the current
    quote (empty when it has none), and either there is no quote and no
    history, or the quote is a [market_data] message and the newest
    sample of the history is the sample of that quote. *)
Theorem quote_indicators_history_agree (P : Platform) (evs : list Event) :
  let st := state_after P evs in
  indicators st = or_else (opt_prop (currentData st) "indicators") (JObj [])
  /\ ((currentData st = JNull /\ priceHistory st = [])
      \/ (has_type (currentData st) "market_data" = true
          /\ last (priceHistory st) = Some (sample_of (currentData st)))).
Proof.
  apply invariant_after with
    (I := fun st =>
       indicators st = or_else (opt_prop (currentData st) "indicators") (JObj [])
       /\ ((currentData st = JNull /\ priceHistory st = [])
           \/ (has_type (currentData st) "market_data" = true
               /\ last (priceHistory st) = Some (sample_of (currentData st))))).
  - split; [done|by left].
  - intros st ev [Hind Hq].
    destruct (step_tick P st ev) as [(-> & -> & ->)|(data & Hty & -> & -> & ->)];
      [done|].
    split; [done|]. right. split; [done|apply last_push_history].
Qed.


Section Ticks.
Context (P : Platform).

Lemma state_after_snoc (evs : list Event) (ev : Event) :
  state_after P (evs ++ [ev]) = fst (step P (state_after P evs) ev).
Proof. apply run_snoc. Qed.

(** What a [market_data] message on an open socket leaves behind. *)
Lemma after_tick (st : State) (ws : nat) (sock : WebSocket) (data : JsValue) :
  sockets st !! ws = Some sock ->
  readyState sock = OPEN ->
  has_type data "market_data" = true ->
  currentData (fst (step P st (WsMessage ws (Some data)))) = data
  /\ priceHistory (fst (step P st (WsMessage ws (Some data))))
     = push_history data (priceHistory st)
  /\ sockets (fst (step P st (WsMessage ws (Some data)))) = sockets st.
Proof.
  intros Hws Hopen Hty. by rewrite (step_market_data P st ws sock data).
Qed.

Lemma previous_price_short (history : list Sample) :
  length history < 2 -> previous_price history = JUndefined.
Proof.
  intros Hlen. unfold previous_price, at_index.
  by destruct (Z.ltb_spec (Z.of_nat (length history) - 2) 0); [|lia].
Qed.

(** After two pushes the sample before the newest is the first pushed,
    whatever the window held and dropped. *)
Lemma previous_price_pushed (d1 d2 : JsValue) (prev : list Sample) :
  previous_price (push_history d2 (push_history d1 prev))
  = opt_prop d1 "price".
Proof.
  unfold previous_price, at_index.
  set (h1 := push_history d1 prev).
  assert (Hlen1 : 1 <= length h1 <= 50).
  { subst h1. split; [|apply push_history_length].
    rewrite push_history_newest, length_drop, length_app. simpl. lia. }
  assert (Hlast1 : h1 !! (length h1 - 1) = Some (sample_of d1)).
  { subst h1. rewrite push_history_newest, length_drop, lookup_drop.
    rewrite length_app. simpl.
    replace (length prev + 1 - 50 + (length prev + 1 - (length prev + 1 - 50) - 1))
      with (length prev) by lia.
    by rewrite list_lookup_middle. }
  rewrite push_history_newest, length_drop, length_app. simpl.
  destruct (Z.ltb_spec
              (Z.of_nat (length h1 + 1 - (length h1 + 1 - 50)) - 2) 0); [lia|].
  rewrite lookup_drop.
  replace (length h1 + 1 - 50
           + Z.to_nat (Z.of_nat (length h1 + 1 - (length h1 + 1 - 50)) - 2))
    with (length h1 - 1) by lia.
  rewrite lookup_app_l by lia. by rewrite Hlast1.
Qed.

End Ticks.

(** X4. The trend icon of the Current Price card.  While the history
    holds fewer than two samples the icon is the neutral one.  After two
    [market_data] messages with numeric prices [p1] and then [p2], it is
    neutral when [p1] is zero, rising when [p1 < p2] and falling when
    [p2 <= p1], equal prices included. *)
Theorem trend_icon_of_last_two_ticks (P : Platform) :
  (forall st, length (priceHistory st) < 2 -> trend_icon st = Some Activity)
  /\ (forall evs ws sock d1 d2 p1 p2,
        sockets (state_after P evs) !! ws = Some sock ->
        readyState sock = OPEN ->
        has_type d1 "market_data" = true ->
        has_type d2 "market_data" = true ->
        opt_prop d1 "price" = JNum (Fin p1) ->
        opt_prop d2 "price" = JNum (Fin p2) ->
        let st := state_after P (evs ++ messages ws [d1; d2]) in
        (p1 == 0 -> trend_icon st = Some Activity)%Q
        /\ (~ p1 == 0 -> p1 < p2 -> trend_icon st = Some TrendingUp)%Q
        /\ (~ p1 == 0 -> p2 <= p1 -> trend_icon st = Some TrendingDown)%Q).
Proof.
  split.
  - intros st Hlen. unfold trend_icon. by rewrite previous_price_short.
  - intros evs ws sock d1 d2 p1 p2 Hws Hopen Hd1 Hd2 Hp1 Hp2 st.
    assert (Hicon : trend_icon st
                    = getTrendIcon (JNum (Fin p2)) (JNum (Fin p1))).
    { subst st. unfold messages. simpl.
      replace (evs ++ [WsMessage ws (Some d1); WsMessage ws (Some d2)])
        with ((evs ++ [WsMessage ws (Some d1)]) ++ [WsMessage ws (Some d2)])
        by (by rewrite <- app_assoc).
      rewrite !state_after_snoc.
      destruct (after_tick P (state_after P evs) ws sock d1 Hws Hopen Hd1)
        as (_ & Hh1 & Hs1).
      rewrite <- Hs1 in Hws.
      destruct (after_tick P _ ws sock d2 Hws Hopen Hd2) as (Hc2 & Hh2 & _).
      unfold trend_icon. rewrite Hc2, Hh2, Hh1, previous_price_pushed.
      by rewrite Hp1, Hp2. }
    rewrite Hicon. unfold getTrendIcon. simpl.
    destruct (Qeq_bool p1 0) eqn:Hzero; simpl.
    + apply Qeq_bool_iff in Hzero. repeat split; try done.
    + assert (~ (p1 == 0)%Q) as Hnz.
      { intros Heq. apply Qeq_bool_iff in Heq. congruence. }
      split; [done|]. split; intros _ Hcmp.
      * destruct (Qle_bool p2 p1) eqn:Hle; [|done].
        apply Qle_bool_iff in Hle. by apply Qle_not_lt in Hle.
      * apply Qle_bool_iff in Hcmp. by rewrite Hcmp.
Qed.

Lemma trend_icon_of_last_two_ticks_witness :
  let evs := [Mount; WsOpened 0] in
  let sock := {| url := "wss://api.example.com/api/ws/market/AAPL";
                 symbol := "AAPL"; readyState := OPEN |} in
  let d1 := example_tick (19123 # 100) in
  let d2 := example_tick (190 # 1) in
  sockets (state_after example_platform evs) !! 0 = Some sock
  /\ readyState sock = OPEN
  /\ has_type d1 "market_data" = true
  /\ has_type d2 "market_data" = true
  /\ opt_prop d1 "price" = JNum (Fin (19123 # 100))
  /\ opt_prop d2 "price" = JNum (Fin (190 # 1))
  /\ ~ (19123 # 100 == 0)%Q
  /\ (190 # 1 <= 19123 # 100)%Q
  /\ trend_icon (state_after example_platform (evs ++ messages 0 [d1; d2]))
     = Some TrendingDown.
Proof.
  intros evs sock d1 d2.
  assert (H1 : sockets (state_after example_platform evs) !! 0 = Some sock)
    by reflexivity.
  assert (H2 : readyState sock = OPEN) by reflexivity.
  assert (H3 : has_type d1 "market_data" = true) by reflexivity.
  assert (H4 : has_type d2 "market_data" = true) by reflexivity.
  assert (H5 : opt_prop d1 "price" = JNum (Fin (19123 # 100))) by reflexivity.
  assert (H6 : opt_prop d2 "price" = JNum (Fin (190 # 1))) by reflexivity.
  assert (H7 : ~ (19123 # 100 == 0)%Q) by (unfold Qeq; simpl; lia).
  assert (H8 : (190 # 1 <= 19123 # 100)%Q) by (unfold Qle; simpl; lia).
  do 8 (split; [assumption|]).
  exact (proj2 (proj2 (proj2 (trend_icon_of_last_two_ticks example_platform)
                         evs 0 sock d1 d2 _ _ H1 H2 H3 H4 H5 H6)) H7 H8).
Defined.

(** X5. The colour and the status of the RSI card come from the same
    thresholds: the status is overbought exactly with the red colour,
    oversold exactly with the green one, neutral otherwise.  For a
    numeric RSI [q]: zero is gray, like a missing value; above 70 is
    red; below 30 and not zero is green; from 30 to 70 is yellow.  The
    status of any other indicator is neutral. *)
Theorem rsi_colour_and_status (rsi : JsValue) :
  getIndicatorStatus "rsi" rsi
  = (colour ← getRSIColor rsi;
     Some (if String.eqb colour "text-red-500" then "overbought"
           else if String.eqb colour "text-green-500" then "oversold"
           else "neutral"))
  /\ (forall q, rsi = JNum (Fin q) ->
        (q == 0 -> getRSIColor rsi = Some "text-gray-500")
        /\ (70 # 1 < q -> getRSIColor rsi = Some "text-red-500")
        /\ (~ q == 0 -> q < 30 # 1 -> getRSIColor rsi = Some "text-green-500")
        /\ (30 # 1 <= q -> q <= 70 # 1 ->
            getRSIColor rsi = Some "text-yellow-500"))%Q
  /\ (forall indicator, indicator <> "rsi" ->
        getIndicatorStatus indicator rsi = Some "neutral").
Proof.
  split; [|split].
  - unfold getIndicatorStatus, getRSIColor. simpl.
    destruct (truthy rsi); simpl; [|done].
    destruct (js_gt rsi (JNum (Fin (70 # 1)))) as [[|]|]; simpl; try done.
    by destruct (js_lt rsi (JNum (Fin (30 # 1)))) as [[|]|].
  - intros q ->. unfold getRSIColor. simpl.
    destruct (Qeq_bool q 0) eqn:Hzero; simpl.
    + apply Qeq_bool_iff in Hzero. repeat split; try done.
      * intros H70. rewrite Hzero in H70. by vm_compute in H70.
      * intros H30 H70. rewrite Hzero in H30. by vm_compute in H30.
    + assert (~ (q == 0)%Q) as Hnz.
      { intros Heq. apply Qeq_bool_iff in Heq. congruence. }
      split; [done|].
      destruct (Qle_bool q (70 # 1)) eqn:H70; simpl.
      * apply Qle_bool_iff in H70.
        destruct (Qle_bool (30 # 1) q) eqn:H30; simpl.
        -- apply Qle_bool_iff in H30. repeat split; try done.
           ++ intros Hgt. by apply Qle_not_lt in H70.
           ++ intros _ Hlt. by apply Qle_not_lt in H30.
        -- repeat split; try done.
           ++ intros Hgt. by apply Qle_not_lt in H70.
           ++ intros Hle _. apply Qle_bool_iff in Hle. congruence.
      * repeat split; try done.
        -- intros _ Hlt. assert (q <= 70 # 1)%Q as Hle.
           { apply Qlt_le_weak. eapply Qlt_trans; [exact Hlt|]. done. }
           apply Qle_bool_iff in Hle. congruence.
        -- intros _ Hle. apply Qle_bool_iff in Hle. congruence.
  - intros indicator Hne. unfold getIndicatorStatus.
    destruct (truthy rsi); simpl; [|done].
    by destruct (String.eqb_spec indicator "rsi").
Qed.

Lemma rsi_colour_and_status_witness :
  JNum (Fin (75 # 1)) = JNum (Fin (75 # 1))
  /\ (70 # 1 < 75 # 1)%Q
  /\ getRSIColor (JNum (Fin (75 # 1))) = Some "text-red-500".
Proof.
  assert (H : (70 # 1 < 75 # 1)%Q) by (unfold Qlt; simpl; lia).
  split; [reflexivity|]. split; [exact H|].
  exact (proj1 (proj2 (proj1 (proj2 (rsi_colour_and_status _))
                         (75 # 1) eq_refl)) H).
Defined.

(** X6. A quote without a volume breaks the Current Price card: after a
    [market_data] message whose [volume] is missing or [null],
    evaluating the lines of the card throws, and with it the render.
    After a message whose price and volume are numbers and whose
    timestamp is a string, the card shows the formatted price, the
    locale string of the volume and the locale time of the timestamp.
    Before the first quote it shows its placeholders. *)
Theorem volume_line_needs_a_volume (P : Platform) :
  price_card (initial_state P)
  = Some {| price_line := Text "$0.00"; volume_line := Plain "0";
            time_line := Plain "No data" |}
  /\ (forall evs ws sock data,
        sockets (state_after P evs) !! ws = Some sock ->
        readyState sock = OPEN ->
        has_type data "market_data" = true ->
        let st := state_after P (evs ++ messages ws [data]) in
        (absent (opt_prop data "volume") -> price_card st = None)
        /\ (forall p v t,
              opt_prop data "price" = JNum p ->
              opt_prop data "volume" = JNum v ->
              opt_prop data "timestamp" = JStr t ->
              price_card st
              = Some {| price_line := Currency (JNum p);
                        volume_line := LocaleString (JNum v);
                        time_line := LocaleTimeString (JStr t) |})).
Proof.
  split; [done|].
  intros evs ws sock data Hws Hopen Hty st.
  assert (Hc : currentData st = data).
  { subst st. unfold messages. simpl. rewrite state_after_snoc.
    by destruct (after_tick P (state_after P evs) ws sock data Hws Hopen Hty). }
  pose proof (has_type_truthy data _ Hty) as Htruthy.
  unfold price_card. rewrite Hc, Htruthy.
  rewrite !(truthy_prop data) by done. simpl.
  split.
  - intros Habsent.
    destruct (formatPrice (opt_prop data "price")); [simpl|done].
    by destruct Habsent as [-> | ->].
  - by intros p v t -> -> ->.
Qed.

Lemma volume_line_needs_a_volume_witness :
  let evs := [Mount; WsOpened 0] in
  let sock := {| url := "wss://api.example.com/api/ws/market/AAPL";
                 symbol := "AAPL"; readyState := OPEN |} in
  let data := JObj [("type", JStr "market_data");
                    ("price", JNum (Fin (190 # 1)));
                    ("timestamp", JStr "2024-01-01T00:00:00Z")] in
  sockets (state_after example_platform evs) !! 0 = Some sock
  /\ readyState sock = OPEN
  /\ has_type data "market_data" = true
  /\ absent (opt_prop data "volume")
  /\ price_card (state_after example_platform (evs ++ messages 0 [data]))
     = None.
Proof.
  intros evs sock data.
  assert (H1 : sockets (state_after example_platform evs) !! 0 = Some sock)
    by reflexivity.
  assert (H2 : readyState sock = OPEN) by reflexivity.
  assert (H3 : has_type data "market_data" = true) by reflexivity.
  assert (H4 : absent (opt_prop data "volume")) by (left; reflexivity).
  do 4 (split; [assumption|]).
  exact (proj1 (proj2 (volume_line_needs_a_volume example_platform)
                  evs 0 sock data H1 H2 H3) H4).
Defined.

Section Refs.
Context (P : Platform).

Lemma ws_close_frame (i : nat) (st : State) :
  lifecycle (fst (ws_close i st)) = lifecycle st
  /\ timers (fst (ws_close i st)) = timers st
  /\ next_timer_id (fst (ws_close i st)) = next_timer_id st
  /\ reconnectTimeoutRef (fst (ws_close i st)) = reconnectTimeoutRef st.
Proof. unfold ws_close. by repeat case_match. Qed.

Lemma connectWebSocket_latest (sym : string) (st : State) :
  wsRef st = latest_socket st ->
  wsRef (fst (connectWebSocket P sym st))
  = latest_socket (fst (connectWebSocket P sym st)).
Proof.
  intros Hst. unfold connectWebSocket.
  assert (Hclose : forall i,
            wsRef (fst (ws_close i st)) = latest_socket (fst (ws_close i st))).
  { intros i. unfold latest_socket.
    by rewrite ws_close_wsRef, ws_close_length. }
  destruct (wsRef st) as [i|] eqn:Href.
  - specialize (Hclose i). destruct (ws_close i st) as [st1 e1].
    simpl in Hclose.
    destruct (ws_rejects P (market_url P sym)); simpl.
    + unfold latest_socket in *. simpl. congruence.
    + unfold latest_socket. simpl. rewrite length_app. simpl.
      by rewrite Nat.add_1_r.
  - destruct (ws_rejects P (market_url P sym)); simpl.
    + unfold latest_socket in *. simpl. congruence.
    + unfold latest_socket. simpl. rewrite length_app. simpl.
      by rewrite Nat.add_1_r.
Qed.

Lemma symbol_cleanup_latest (st : State) :
  wsRef st = latest_socket st ->
  wsRef (fst (symbol_cleanup st)) = latest_socket (fst (symbol_cleanup st)).
Proof.
  intros Hst.
  assert (wsRef (fst (symbol_cleanup st)) = wsRef st
          /\ length (sockets (fst (symbol_cleanup st))) = length (sockets st))
    as [Href Hlen].
  { unfold symbol_cleanup, clear_timeout, ws_close.
    repeat (case_match; simplify_eq/=); by rewrite ?length_insert. }
  unfold latest_socket in *. by rewrite Href, Hlen.
Qed.

Lemma symbol_effect_latest (st : State) :
  wsRef st = latest_socket st ->
  wsRef (fst (symbol_effect P st)) = latest_socket (fst (symbol_effect P st)).
Proof.
  intros Hst. unfold symbol_effect.
  case_match; [by apply connectWebSocket_latest|done].
Qed.

Lemma step_latest (st : State) (ev : Event) :
  wsRef st = latest_socket st ->
  wsRef (fst (step P st ev)) = latest_socket (fst (step P st ev)).
Proof.
  intros Hst. destruct ev; simpl; try done.
  - destruct (lifecycle st); try done.
    pose proof (symbol_effect_latest (set_lifecycle Mounted st) Hst).
    by destruct (symbol_effect P (set_lifecycle Mounted st)).
  - destruct (lifecycle st); try done.
    by apply (symbol_cleanup_latest (set_lifecycle Unmounted st)).
  - destruct (lifecycle st); try done. case_match; [done|].
    pose proof (symbol_cleanup_latest (set_selectedSymbol s st) Hst) as H1.
    destruct (symbol_cleanup (set_selectedSymbol s st)) as [st1 e1].
    pose proof (symbol_effect_latest st1 H1).
    by destruct (symbol_effect P st1).
  - by destruct (lifecycle st).
  - by destruct (lifecycle st).
  - destruct (lifecycle st); try done. unfold createPriceAlert.
    by case_match.
  - unfold fetchSymbols_done. by repeat case_match.
  - unfold fetchAlerts_done. by repeat case_match.
  - unfold fetchRecentAnalyses_done. by repeat case_match.
  - destruct (sockets st !! ws) as [w|] eqn:Hw; [|done].
    destruct (readyState w); try done.
    unfold latest_socket in *. simpl. by rewrite length_insert.
  - destruct (sockets st !! ws) as [w|] eqn:Hw; [|done].
    destruct (readyState w); try done.
    unfold onmessage, handleWebSocketMessage. by handler_cases.
  - by repeat case_match.
  - destruct (sockets st !! ws) as [w|] eqn:Hw; [|done].
    destruct (is_closed w); [done|].
    unfold latest_socket in *. simpl. by rewrite length_insert.
  - destruct (find_timer t st); [|done]. case_match; [|done].
    by apply (connectWebSocket_latest _ (remove_timer t st)).
Qed.

Lemma step_ids_positive (st : State) (ev : Event) :
  ids_positive st -> ids_positive (fst (step P st ev)).
Proof.
  intros [Hnext Href].
  destruct ev; simpl; unfold_handlers; unfold ids_positive;
    handler_cases; simpl; split; try done; try lia;
    intros t0 Ht0; simplify_eq; auto; lia.
Qed.

Lemma reachable_ids_positive (evs : list Event) :
  ids_positive (state_after P evs).
Proof.
  apply invariant_after; [|apply step_ids_positive].
  split; [simpl; lia|done].
Qed.

(** After the cleanup no socket is live and the timer of the ref is not
    pending; the cleanup schedules nothing and constructs nothing. *)
Lemma symbol_cleanup_cancels (st : State) :
  only_wsRef_live st ->
  ids_positive st ->
  none_live (fst (symbol_cleanup st))
  /\ (forall tm, tm ∈ timers (fst (symbol_cleanup st)) ->
        tm ∈ timers st /\ reconnectTimeoutRef st <> Some (timer_id tm))
  /\ List.filter is_WsConstruct (snd (symbol_cleanup st)) = []
  /\ List.filter is_SetTimeout (snd (symbol_cleanup st)) = [].
Proof.
  intros Hone [_ Hpos].
  destruct (symbol_cleanup_spec st Hone) as (Hnone & _ & Hcalls & _).
  split; [done|]. split; [|split; [done|]].
  - unfold symbol_cleanup.
    assert (Hframe : forall i,
              timers (fst (ws_close i st)) = timers st
              /\ reconnectTimeoutRef (fst (ws_close i st))
                 = reconnectTimeoutRef st)
      by (intros i; by destruct (ws_close_frame i st) as (_ & ? & _ & ?)).
    destruct (wsRef st) as [i|].
    + destruct (Hframe i) as [Ht Hr]. destruct (ws_close i st) as [st1 e1].
      simpl in Ht, Hr. rewrite Hr.
      destruct (reconnectTimeoutRef st) as [t|] eqn:Href; simpl.
      * specialize (Hpos t eq_refl).
        destruct (Nat.eqb_spec t 0); [lia|]. simpl. intros tm Htm.
        apply list_elem_of_filter in Htm as [Hne Htm]. rewrite Ht in Htm.
        split; [done|]. congruence.
      * intros tm Htm. by rewrite Ht in Htm.
    + destruct (reconnectTimeoutRef st) as [t|] eqn:Href; simpl.
      * specialize (Hpos t eq_refl).
        destruct (Nat.eqb_spec t 0); [lia|]. simpl. intros tm Htm.
        apply list_elem_of_filter in Htm as [Hne Htm].
        split; [done|]. congruence.
      * done.
  - unfold symbol_cleanup, clear_timeout, ws_close.
    by repeat (case_match; simplify_eq/=).
Qed.

End Refs.

(** X7. [wsRef] always holds the socket constructed last: it is [null]
    exactly while no socket has been constructed. *)
Theorem wsRef_is_latest_socket (P : Platform) (evs : list Event) :
  wsRef (state_after P evs) = latest_socket (state_after P evs).
Proof. apply invariant_after; [done|apply step_latest]. Qed.

(** X8. What the cleanup does: on a change of symbol or at unmount, in
    any reachable state, it leaves no socket live, removes the timer
    whose id the ref holds and no other, constructs no socket and
    schedules no timer. *)
Theorem cleanup_closes_and_cancels (P : Platform) (evs : list Event) :
  let st := state_after P evs in
  none_live (fst (symbol_cleanup st))
  /\ (forall tm, tm ∈ timers (fst (symbol_cleanup st)) <->
        tm ∈ timers st /\ reconnectTimeoutRef st <> Some (timer_id tm))
  /\ List.filter is_WsConstruct (snd (symbol_cleanup st)) = []
  /\ List.filter is_SetTimeout (snd (symbol_cleanup st)) = [].
Proof.
  intros st.
  destruct (symbol_cleanup_cancels st (reachable_only_wsRef_live P evs)
              (reachable_ids_positive P evs))
    as (Hnone & Htimers & Hnew & Hset).
  split; [done|]. split; [|done].
  intros tm. split; [apply Htimers|]. intros [Htm Hne].
  unfold symbol_cleanup, clear_timeout, ws_close.
  repeat (case_match; simplify_eq/=); try done;
    apply list_elem_of_filter; split; try done; congruence.
Qed.

Section Teardown.
Context (P : Platform).

Lemma step_quiescent (st : State) (ev : Event) :
  quiescent st ->
  quiescent (fst (step P st ev))
  /\ sockets (fst (step P st ev)) = sockets st
  /\ List.filter is_WsConstruct (snd (step P st ev)) = []
  /\ List.filter is_SetTimeout (snd (step P st ev)) = [].
Proof.
  intros (Hlife & Htimers & Hclosed). unfold quiescent, all_closed.
  destruct ev; simpl; rewrite ?Hlife; try done.
  - unfold fetchSymbols_done. by repeat case_match.
  - unfold fetchAlerts_done. by repeat case_match.
  - unfold fetchRecentAnalyses_done. by repeat case_match.
  - destruct (sockets st !! ws) as [w|] eqn:Hw; [|done].
    by rewrite (Hclosed ws w Hw).
  - destruct (sockets st !! ws) as [w|] eqn:Hw; [|done].
    by rewrite (Hclosed ws w Hw).
  - destruct (sockets st !! ws) as [w|] eqn:Hw; [|done].
    unfold is_closed. by rewrite (Hclosed ws w Hw).
  - destruct (sockets st !! ws) as [w|] eqn:Hw; [|done].
    unfold is_closed. by rewrite (Hclosed ws w Hw).
  - unfold find_timer. by rewrite Htimers.
Qed.

Lemma run_quiescent (evs : list Event) :
  forall st,
    quiescent st ->
    quiescent (fst (run P st evs))
    /\ sockets (fst (run P st evs)) = sockets st
    /\ List.filter is_WsConstruct (snd (run P st evs)) = []
    /\ List.filter is_SetTimeout (snd (run P st evs)) = [].
Proof.
  induction evs as [|ev evs IH]; intros st Hst; [done|]. simpl.
  destruct (step_quiescent st ev Hst) as (Hq1 & Hs1 & Hc1 & Ht1).
  destruct (step P st ev) as [st1 e1]. simpl in *.
  destruct (IH st1 Hq1) as (Hq2 & Hs2 & Hc2 & Ht2).
  destruct (run P st1 evs) as [st2 e2]. simpl in *.
  rewrite !List.filter_app, Hc1, Hc2, Ht1, Ht2. by rewrite Hs2.
Qed.

Lemma ws_close_closed (i : nat) (st : State) :
  all_closed st -> fst (ws_close i st) = st.
Proof.
  intros Hclosed. unfold ws_close.
  destruct (sockets st !! i) as [w|] eqn:Hw; [|done].
  unfold live. by rewrite (Hclosed i w Hw).
Qed.

Lemma symbol_cleanup_closed (st : State) :
  all_closed st ->
  lifecycle (fst (symbol_cleanup st)) = lifecycle st
  /\ sockets (fst (symbol_cleanup st)) = sockets st.
Proof.
  intros Hclosed. unfold symbol_cleanup.
  destruct (wsRef st) as [i|].
  - pose proof (ws_close_closed i st Hclosed) as Hsame.
    destruct (ws_close i st) as [st1 e1]. simpl in Hsame. subst st1.
    unfold clear_timeout. by repeat (case_match; simplify_eq/=).
  - unfold clear_timeout. by repeat (case_match; simplify_eq/=).
Qed.

End Teardown.

(** X9. A teardown that finds every socket closed and no pending timer
    but the one the ref holds is final: whatever events follow, no
    socket is constructed, no timer is scheduled, the sockets stay as
    they are and the component stays without timers. *)
Theorem teardown_of_closed_sockets_is_final (P : Platform)
    (evs later : list Event) :
  let st := state_after P evs in
  lifecycle st = Mounted ->
  all_closed st ->
  (forall tm, tm ∈ timers st -> reconnectTimeoutRef st = Some (timer_id tm)) ->
  let r := run P (fst (step P st Unmount)) later in
  quiescent (fst r)
  /\ sockets (fst r) = sockets st
  /\ List.filter is_WsConstruct (snd r) = []
  /\ List.filter is_SetTimeout (snd r) = [].
Proof.
  intros st Hmounted Hclosed Hpending r.
  assert (Hq : quiescent (fst (step P st Unmount))
               /\ sockets (fst (step P st Unmount)) = sockets st).
  { assert (step P st Unmount = symbol_cleanup (set_lifecycle Unmounted st))
      as -> by (simpl; by rewrite Hmounted).
    destruct (symbol_cleanup_cancels (set_lifecycle Unmounted st)
                (reachable_only_wsRef_live P evs)
                (reachable_ids_positive P evs)) as (_ & Htimers & _).
    destruct (symbol_cleanup_closed (set_lifecycle Unmounted st) Hclosed)
      as [Hlife Hsocks].
    split; [|done]. split; [done|]. split.
    - destruct (timers (fst (symbol_cleanup (set_lifecycle Unmounted st))))
        as [|tm tms] eqn:Htms; [done|].
      destruct (Htimers tm) as [Htm Hne]; [by left|].
      simpl in Htm, Hne. by specialize (Hpending tm Htm).
    - intros i ws Hi. rewrite Hsocks in Hi. by apply (Hclosed i). }
  destruct Hq as [Hq Hsocks].
  destruct (run_quiescent P later _ Hq) as (Hq' & Hs' & Hc' & Ht').
  subst r. by rewrite Hs', Hsocks.
Qed.

Lemma teardown_of_closed_sockets_is_final_witness :
  let evs := [Mount; WsOpened 0; WsClosed 0] in
  let later := [Elapse 3000; TimerFired 1; WsClosed 0; AlertPostFulfilled] in
  let st := state_after example_platform evs in
  lifecycle st = Mounted
  /\ all_closed st
  /\ (forall tm, tm ∈ timers st -> reconnectTimeoutRef st = Some (timer_id tm))
  /\ List.filter is_WsConstruct
       (snd (run example_platform (fst (step example_platform st Unmount)) later))
     = [].
Proof.
  intros evs later st.
  assert (H1 : lifecycle st = Mounted) by reflexivity.
  assert (H2 : all_closed st).
  { intros i ws Hi. destruct i as [|i]; [|by destruct i].
    vm_compute in Hi. by simplify_eq. }
  assert (H3 : forall tm, tm ∈ timers st ->
                 reconnectTimeoutRef st = Some (timer_id tm)).
  { intros tm Htm. vm_compute in Htm.
    apply list_elem_of_singleton in Htm. by subst. }
  do 3 (split; [assumption|]).
  exact (proj1 (proj2 (proj2 (teardown_of_closed_sockets_is_final
                                example_platform evs later H1 H2 H3)))).
Defined.

Section Cycles.
Context (P : Platform).

Lemma reconnect_cycle_spec (k : nat) (st : State) :
  let socket := {| url := market_url P "AAPL"; symbol := "AAPL";
                   readyState := CONNECTING |} in
  ws_rejects P (market_url P "AAPL") = false ->
  length (sockets st) = S k ->
  sockets st !! k = Some socket ->
  wsRef st = Some k ->
  next_timer_id st = S k ->
  timers st = [] ->
  let r := run P st (reconnect_cycle k) in
  length (sockets (fst r)) = S (S k)
  /\ sockets (fst r) !! S k = Some socket
  /\ wsRef (fst r) = Some (S k)
  /\ next_timer_id (fst r) = S (S k)
  /\ timers (fst r) = []
  /\ List.filter is_WsConstruct (snd r)
     = [WsConstruct (S k) (market_url P "AAPL")].
Proof.
  intros socket Hok Hlen Hsock Href Hnext Htimers r. subst r.
  unfold reconnect_cycle, run. cbn [step].
  rewrite Hsock. cbn [is_closed socket readyState].
  unfold onclose, set_socket. simpl.
  rewrite Htimers, Hnext. unfold find_timer. simpl.
  rewrite Nat.eqb_refl. simpl.
  destruct (N.leb_spec (clock st + reconnect_delay) (clock st + 3000));
    [|unfold reconnect_delay in *; lia].
  unfold connectWebSocket, remove_timer. simpl. rewrite Href.
  unfold ws_close. simpl.
  rewrite list_lookup_insert_eq by lia. simpl.
  rewrite Hok. simpl.
  rewrite length_insert, Hlen.
  destruct (decide (S k <> S k)) as [?|_]; [done|]. simpl.
  repeat split.
  - rewrite length_app, length_insert, Hlen. simpl. lia.
  - rewrite lookup_app_r by (rewrite length_insert; lia).
    by rewrite length_insert, Hlen, Nat.sub_diag.
  - rewrite filter_cons. simpl. by destruct (decide (S k <> S k)).
Qed.

Lemma reconnect_cycles_succ (n : nat) :
  reconnect_cycles (S n) = reconnect_cycles n ++ reconnect_cycle n.
Proof.
  unfold reconnect_cycles. by rewrite seq_S, flat_map_app.
Qed.

End Cycles.


(** X10. Reconnection has no cap.  Where the constructor accepts the
    stream URL of AAPL, let the server close every connection and each
    timer fire when it is due: after [n] such rounds the component has
    constructed [n + 1] sockets, the last of them connecting, held by
    [wsRef], with no timer pending; the next round goes the same way. *)
Theorem reconnect_has_no_cap (P : Platform) (n : nat) :
  ws_rejects P (market_url P "AAPL") = false ->
  let r := run P (initial_state P) (Mount :: reconnect_cycles n) in
  length (sockets (fst r)) = S n
  /\ sockets (fst r) !! n
     = Some {| url := market_url P "AAPL"; symbol := "AAPL";
               readyState := CONNECTING |}
  /\ wsRef (fst r) = Some n
  /\ timers (fst r) = []
  /\ length (List.filter is_WsConstruct (snd r)) = S n.
Proof.
  intros Hok r. subst r.
  enough (length (sockets (fst (run P (initial_state P)
                                  (Mount :: reconnect_cycles n)))) = S n
          /\ sockets (fst (run P (initial_state P)
                             (Mount :: reconnect_cycles n))) !! n
             = Some {| url := market_url P "AAPL"; symbol := "AAPL";
                       readyState := CONNECTING |}
          /\ wsRef (fst (run P (initial_state P)
                           (Mount :: reconnect_cycles n))) = Some n
          /\ next_timer_id (fst (run P (initial_state P)
                                   (Mount :: reconnect_cycles n))) = S n
          /\ timers (fst (run P (initial_state P)
                            (Mount :: reconnect_cycles n))) = []
          /\ length (List.filter is_WsConstruct
                       (snd (run P (initial_state P)
                               (Mount :: reconnect_cycles n)))) = S n)
    by tauto.
  induction n as [|n IH].
  - unfold reconnect_cycles. simpl. unfold symbol_effect, connectWebSocket.
    simpl. unfold initial_symbol. rewrite Hok. simpl. done.
  - rewrite reconnect_cycles_succ, app_comm_cons, run_app.
    destruct IH as (Hlen & Hsock & Href & Hnext & Htimers & Hcount).
    destruct (run P (initial_state P) (Mount :: reconnect_cycles n))
      as [st e]. simpl in Hlen, Hsock, Href, Hnext, Htimers, Hcount.
    destruct (reconnect_cycle_spec P n st Hok Hlen Hsock Href Hnext Htimers)
      as (Hlen' & Hsock' & Href' & Hnext' & Htimers' & Hcalls').
    destruct (run P st (reconnect_cycle n)) as [st' e'].
    simpl in *. rewrite List.filter_app, length_app, Hcalls', Hcount.
    simpl. repeat split; try done. lia.
Qed.

Lemma reconnect_has_no_cap_witness :
  ws_rejects example_platform (market_url example_platform "AAPL") = false
  /\ length (sockets (fst (run example_platform
                             (initial_state example_platform)
                             (Mount :: reconnect_cycles 10)))) = 11.
Proof.
  assert (H : ws_rejects example_platform
                (market_url example_platform "AAPL") = false) by reflexivity.
  split; [exact H|].
  exact (proj1 (reconnect_has_no_cap example_platform 10 H)).
Defined.




Section Panel.

Lemma alert_rows_throws (arr : list JsValue) :
  forall index,
    alert_rows index arr = None
    <-> exists k alert, arr !! k = Some alert /\ alert_throws alert = true.
Proof.
  induction arr as [|a arr IH]; intros index; simpl.
  - split; [done|]. by intros (k & alert & Hk & _).
  - destruct (alert_row index a) as [row|] eqn:Hrow; simpl.
    + assert (alert_throws a = false) as Ha.
      { destruct (alert_throws a) eqn:Hn; [|done].
        apply (alert_row_throws index) in Hn. congruence. }
      destruct (alert_rows (S index) arr) as [rows|] eqn:Hrows; simpl.
      * split; [done|]. intros ([|k] & alert & Hk & Hnull); simpl in Hk.
        -- simplify_eq. congruence.
        -- assert (alert_rows (S index) arr = None) as Hnone
             by (apply IH; eauto).
           congruence.
      * split; [|done]. intros _.
        destruct (proj1 (IH (S index)) Hrows) as (k & alert & Hk & Hnull).
        by exists (S k), alert.
    + split; [|done]. intros _. exists 0, a. split; [done|].
      by apply (alert_row_throws index).
Qed.

End Panel.

(** X11. Evaluating the Active Alerts panel throws exactly when, among
    the first five alerts of the list, one is [null] or [undefined] or
    has a target price or a creation date that cannot be converted to a
    primitive; an entry after the fifth cannot break it. *)
Theorem alerts_panel_throws_on_broken_alert (l : list JsValue) :
  alerts_panel l = None
  <-> exists k alert,
        k < 5 /\ l !! k = Some alert /\ alert_throws alert = true.
Proof.
  unfold alerts_panel. rewrite slice_first_5.
  destruct l as [|a l]; simpl length; cbn [Nat.ltb Nat.leb].
  - split; [done|]. by intros (k & alert & _ & Hk & _).
  - destruct (alert_rows 0 (take 5 (a :: l))) as [rows|] eqn:Hrows.
    + split; [done|]. intros (k & alert & Hk5 & Hk & Hnull).
      assert (alert_rows 0 (take 5 (a :: l)) = None) as Hnone.
      { apply alert_rows_throws. exists k, alert. split; [|done].
        by rewrite lookup_take_lt. }
      congruence.
    + split; [|done]. intros _.
      destruct (proj1 (alert_rows_throws _ 0) Hrows) as (k & alert & Hk & Hnull).
      apply lookup_take_Some in Hk as [Hk Hk5]. by exists k, alert.
Qed.

(** A list whose second alert has an object for its date, and one
    whose sixth alert is [null]. *)
Lemma alerts_panel_throws_on_broken_alert_witness :
  let good := example_alert (200 # 1) in
  let broken := JObj [("symbol", JStr "AAPL"); ("target_price", JNum (Fin (200 # 1)));
                      ("created_at", JObj [("toString", JNum (Fin (1 # 1)))])] in
  alerts_panel [good; broken] = None
  /\ alerts_panel [good; good; good; good; good; JNull] <> None.
Proof.
  intros good broken. split.
  - apply (proj2 (alerts_panel_throws_on_broken_alert [good; broken])).
    exists 1, broken. repeat split. lia.
  - intros Hnone.
    apply (proj1 (alerts_panel_throws_on_broken_alert _)) in Hnone
      as (k & alert & Hk & Hl & Hthrows).
    do 5 (destruct k as [|k]; [vm_compute in Hl; by simplify_eq|]). lia.
Defined.

(** X16. Only a [market_data] message changes the quote, the indicator
    set or the price history.  Every other event leaves the three as
    they are: a change of symbol in particular keeps the quote and the
    samples of the symbol selected before. *)
Theorem only_market_data_changes_the_quote (P : Platform) (st : State)
    (ev : Event) :
  (forall ws data, ev = WsMessage ws (Some data) ->
     has_type data "market_data" = false) ->
  currentData (fst (step P st ev)) = currentData st
  /\ indicators (fst (step P st ev)) = indicators st
  /\ priceHistory (fst (step P st ev)) = priceHistory st.
Proof.
  intros Hev.
  destruct ev; simpl; unfold_handlers; handler_cases; try done.
  specialize (Hev _ _ eq_refl). unfold has_type in Hev.
  simplify_option_eq. congruence.
Qed.

Lemma only_market_data_changes_the_quote_witness :
  let st := state_after example_platform
              [Mount; WsOpened 0;
               WsMessage 0 (Some (example_tick (19123 # 100)))] in
  (forall ws data, SelectSymbol "GOOGL" = WsMessage ws (Some data) ->
     has_type data "market_data" = false)
  /\ currentData (fst (step example_platform st (SelectSymbol "GOOGL")))
     = example_tick (19123 # 100).
Proof.
  intros st.
  assert (H : forall ws data,
                SelectSymbol "GOOGL" = WsMessage ws (Some data) ->
                has_type data "market_data" = false) by discriminate.
  split; [exact H|].
  exact (proj1 (only_market_data_changes_the_quote example_platform st
                  (SelectSymbol "GOOGL") H)).
Defined.

End DashboardMore.

(** ** The summarizer: what is submitted, and when *)

Module SummarizerMore.
Import Js Summarizer SummarizerFacts.

Section Blank.

Lemma trimStart_list_nil (l : list ascii) :
  trimStart_list l = [] <-> forallb isWhiteSpace l = true.
Proof.
  induction l as [|c l IH]; simpl; [done|].
  destruct (isWhiteSpace c); simpl; [done|]. split; discriminate.
Qed.

Lemma trimStart_list_head (l : list ascii) :
  trimStart_list l = []
  \/ exists c r, trimStart_list l = c :: r /\ isWhiteSpace c = false.
Proof.
  induction l as [|c l IH]; simpl; [by left|].
  destruct (isWhiteSpace c) eqn:Hc; [done|]. right. by exists c, l.
Qed.

Lemma string_of_list_ascii_nil (l : list ascii) :
  string_of_list_ascii l = "" <-> l = [].
Proof. by destruct l. Qed.

(** [trim] leaves nothing exactly of a blank string. *)
Lemma trim_blank (s : string) :
  truthy_string (trim s) = negb (blank s).
Proof.
  unfold truthy_string, trim, blank. f_equal.
  set (cs := list_ascii_of_string s).
  destruct (forallb isWhiteSpace cs) eqn:Hblank.
  - apply trimStart_list_nil in Hblank. by rewrite Hblank.
  - apply String.eqb_neq. rewrite string_of_list_ascii_nil.
    destruct (trimStart_list_head cs) as [Hnil|(c & r & Hcs & Hc)].
    + apply trimStart_list_nil in Hnil. congruence.
    + rewrite Hcs. intros Hrev.
      apply (f_equal (@rev ascii)) in Hrev. rewrite rev_involutive in Hrev.
      simpl in Hrev. apply trimStart_list_nil in Hrev.
      rewrite forallb_app in Hrev. simpl in Hrev. rewrite Hc in Hrev.
      by rewrite andb_false_r in Hrev.
Qed.

End Blank.

Section Submissions.
Context (BACKEND_URL : string).

Lemma summarizer_step_requests (st : State) (ev : Event) :
  selected_accepted st ->
  Forall (fun e =>
            match e with
            | HttpGet u => u = API BACKEND_URL +:+ "/meetings"
            | PostJson u title body =>
                u = API BACKEND_URL +:+ "/summarize-text"
                /\ blank title = false /\ blank body = false
            | PostForm u title file =>
                u = API BACKEND_URL +:+ "/summarize-file"
                /\ blank title = false /\ accepted_name (name file) = true
            | _ => True
            end) (snd (step BACKEND_URL st ev)).
Proof.
  intros Hst.
  assert (Htext : handleTextSummary BACKEND_URL st
                  = if blank (meetingTitle st) || blank (meetingContent st)
                    then (st, [ToastError "Please provide both title and content"])
                    else (set_isLoading true st,
                          [PostJson (API BACKEND_URL +:+ "/summarize-text")
                                    (meetingTitle st) (meetingContent st)])).
  { unfold handleTextSummary. rewrite !trim_blank.
    by destruct (blank (meetingTitle st)), (blank (meetingContent st)). }
  assert (Hfile : handleFileSummary BACKEND_URL st
                  = match selectedFile st with
                    | Some file =>
                        if blank (meetingTitle st)
                        then (st, [ToastError "Please provide both title and file"])
                        else (set_isLoading true st,
                              [PostForm (API BACKEND_URL +:+ "/summarize-file")
                                        (meetingTitle st) file])
                    | None =>
                        (st, [ToastError "Please provide both title and file"])
                    end).
  { unfold handleFileSummary. rewrite !trim_blank.
    by destruct (blank (meetingTitle st)), (selectedFile st). }
  destruct ev; simpl; rewrite ?Htext, ?Hfile.
  - by repeat constructor.
  - constructor.
  - constructor.
  - unfold handleFileChange. destruct files0 as [file|]; [|constructor].
    destruct (negb (endsWith (name file) ".txt")
              && negb (endsWith (name file) ".docx")); by repeat constructor.
  - destruct (blank (meetingTitle st)) eqn:Htitle,
             (blank (meetingContent st)) eqn:Hbody; by repeat constructor.
  - destruct (selectedFile st) as [file|] eqn:Hsel; [|by repeat constructor].
    destruct (blank (meetingTitle st)) eqn:Htitle; [by repeat constructor|].
    repeat constructor; simpl; auto.
  - constructor.
  - constructor.
  - unfold fetchMeetings_done. destruct r; constructor.
  - unfold handleTextSummary_done. destruct r; by repeat constructor.
  - unfold handleFileSummary_done. destruct r; by repeat constructor.
Qed.

End Submissions.

(** X13. Whatever happens, the summarizer sends GET requests to the
    meetings endpoint only, text to the summarize-text endpoint only and
    files to the summarize-file endpoint only; no request carries a
    blank title, no text request a blank content, and no file request a
    file whose name ends otherwise than in .txt or .docx. *)
Theorem summarizer_requests (BACKEND_URL : string) (evs : list Event) :
  Forall (fun e =>
            match e with
            | HttpGet u => u = API BACKEND_URL +:+ "/meetings"
            | PostJson u title body =>
                u = API BACKEND_URL +:+ "/summarize-text"
                /\ blank title = false /\ blank body = false
            | PostForm u title file =>
                u = API BACKEND_URL +:+ "/summarize-file"
                /\ blank title = false /\ accepted_name (name file) = true
            | _ => True
            end) (snd (run BACKEND_URL initial_state evs)).
Proof.
  assert (Hinit : selected_accepted initial_state) by (by intros g Hg).
  revert Hinit. generalize initial_state.
  induction evs as [|ev evs IH]; intros st Hst; [constructor|]. simpl.
  pose proof (summarizer_step_requests BACKEND_URL st ev Hst) as Hstep.
  pose proof (step_selected_accepted BACKEND_URL st ev Hst) as Hst1.
  destruct (step BACKEND_URL st ev) as [st1 e1]. specialize (IH st1 Hst1).
  destruct (run BACKEND_URL st1 evs) as [st2 e2]. simpl in *.
  apply Forall_app. by split.
Qed.

(** X14. A success clears the form, so the same click again is refused:
    right after the response of a successful text or file submission,
    [handleTextSummary] and [handleFileSummary] only show their error
    toasts and send nothing. *)
Theorem resubmission_after_success_is_refused (BACKEND_URL : string)
    (st : State) (data : JsValue) :
  (let st' := fst (handleTextSummary_done BACKEND_URL (Fulfilled data) st) in
   handleTextSummary BACKEND_URL st'
   = (st', [ToastError "Please provide both title and content"])
   /\ summary st' = data /\ activeTab st' = "results" /\ isLoading st' = false)
  /\ (let st' := fst (handleFileSummary_done BACKEND_URL (Fulfilled data) st) in
      handleFileSummary BACKEND_URL st'
      = (st', [ToastError "Please provide both title and file"])
      /\ summary st' = data /\ activeTab st' = "results"
      /\ isLoading st' = false).
Proof. done. Qed.

(** X15. A failure keeps the form, so the request can be sent again as
    it was: when a click has sent a text or file request and the
    response is a failure, the loading flag is lowered, title, content,
    file, summary and tab are as before the click, and the same click
    sends the same request again. *)
Theorem failed_submission_can_be_retried (BACKEND_URL : string)
    (st st1 : State) (request : Effect) :
  (handleTextSummary BACKEND_URL st = (st1, [request]) ->
   (forall msg, request <> ToastError msg) ->
   let st2 := fst (handleTextSummary_done BACKEND_URL Rejected st1) in
   snd (handleTextSummary BACKEND_URL st2) = [request]
   /\ st2 = set_isLoading false st)
  /\ (handleFileSummary BACKEND_URL st = (st1, [request]) ->
      (forall msg, request <> ToastError msg) ->
      let st2 := fst (handleFileSummary_done BACKEND_URL Rejected st1) in
      snd (handleFileSummary BACKEND_URL st2) = [request]
      /\ st2 = set_isLoading false st).
Proof.
  split; intros Hclick Hsent.
  - unfold handleTextSummary in *.
    destruct (negb (truthy_string (trim (meetingTitle st)))
              || negb (truthy_string (trim (meetingContent st)))) eqn:Hguard;
      simplify_eq/=; [by destruct (Hsent _ eq_refl)|].
    by rewrite Hguard.
  - unfold handleFileSummary in *.
    destruct (truthy_string (trim (meetingTitle st))) eqn:Htitle,
             (selectedFile st) as [file|] eqn:Hfile;
      simplify_eq/=; try by destruct (Hsent _ eq_refl).
    by rewrite Htitle, Hfile.
Qed.

Lemma failed_submission_can_be_retried_witness :
  let st := fst (run "https://api.example.com" initial_state
                   [ChangeTitle "Board meeting";
                    ChangeContent "Budget approved."]) in
  let request := PostJson "https://api.example.com/api/summarize-text"
                          "Board meeting" "Budget approved." in
  handleTextSummary "https://api.example.com" st
  = (set_isLoading true st, [request])
  /\ (forall msg, request <> ToastError msg)
  /\ snd (handleTextSummary "https://api.example.com"
            (fst (handleTextSummary_done "https://api.example.com" Rejected
                    (set_isLoading true st))))
     = [request].
Proof.
  intros st request.
  assert (H1 : handleTextSummary "https://api.example.com" st
               = (set_isLoading true st, [request])) by reflexivity.
  assert (H2 : forall msg, request <> ToastError msg) by discriminate.
  split; [exact H1|]. split; [exact H2|].
  exact (proj1 (proj1 (failed_submission_can_be_retried
                         "https://api.example.com" st _ request) H1 H2)).
Defined.

End SummarizerMore.
